(** * The job-scraper ingestion pipeline of [app.py]

    A shallow embedding of [JobScraper] (the record cleaning of
    [insert_jobs_to_supabase], the batched upsert loop, the per-location
    fetch and the [run_scrape] loop) together with the Python and pandas
    primitives the code relies on, followed by the properties of the
    pipeline.

    Conventions.  A Python [str] is a [string] whose characters are code
    points below 256.  A Python [float] is a binary64 value of
    [SpecFloat.spec_float].  A call that may raise returns a [result]; code
    that talks to the outside (provider, store, clock, logger, sleep) runs in
    the monad [M], which threads a [world] and keeps it when an exception is
    raised, as Python does.  The interpreter is CPython 3.11 or later with
    its defaults, where [str] of an [int] of more than 4300 digits raises. *)

From Stdlib Require Import ZArith List String Ascii Bool Lia DecimalString.
From Stdlib Require Import Floats.SpecFloat.
From Stdlib Require Import DecimalPos.
Import ListNotations.
Local Open Scope string_scope.

(** ** Exceptions and fallible results *)

(** The subclasses of [Exception] the code can meet.  [BaseException]s that
    are not [Exception]s (KeyboardInterrupt, SystemExit) are not modelled:
    no [except Exception] clause of the source catches them. *)
Inductive exn : Type :=
| ValueError (msg : string)
| TypeError (msg : string)
| OverflowError (msg : string)
| AttributeError (msg : string)
| OtherException (cls msg : string).

(** [str(e)] *)
Definition exn_str (e : exn) : string :=
  match e with
  | ValueError m | TypeError m | OverflowError m | AttributeError m => m
  | OtherException _ m => m
  end.

(** [except (ValueError, TypeError)] *)
Definition is_ValueError_or_TypeError (e : exn) : bool :=
  match e with
  | ValueError _ | TypeError _ => true
  | _ => false
  end.

Inductive result (A : Type) : Type :=
| Ok (a : A)
| Raise (e : exn).
Arguments Ok {A} a.
Arguments Raise {A} e.

Definition is_Ok {A} (r : result A) : bool :=
  match r with Ok _ => true | Raise _ => false end.

(** ** Python strings *)

Module PyStr.

Definition code (c : ascii) : nat := nat_of_ascii c.

Definition between (lo hi : nat) (c : ascii) : bool :=
  (lo <=? code c)%nat && (code c <=? hi)%nat.

(** [str.isspace] on one character (code points below 256). *)
Definition is_space (c : ascii) : bool :=
  between 9 13 c || between 28 32 c || (code c =? 133)%nat || (code c =? 160)%nat.

Definition is_digit (c : ascii) : bool := between 48 57 c.

(** [str.isprintable] on one character (code points below 256). *)
Definition is_printable (c : ascii) : bool :=
  between 32 126 c || (between 161 255 c && negb (code c =? 173)%nat).

Definition is_empty (s : string) : bool :=
  match s with EmptyString => true | String _ _ => false end.

Fixpoint lstrip (s : string) : string :=
  match s with
  | String c s' => if is_space c then lstrip s' else s
  | EmptyString => EmptyString
  end.

Fixpoint rstrip (s : string) : string :=
  match s with
  | String c s' =>
      let r := rstrip s' in
      if is_space c && is_empty r then EmptyString else String c r
  | EmptyString => EmptyString
  end.

(** [s.strip()] *)
Definition strip (s : string) : string := rstrip (lstrip s).

(** [s.split(sep)] for a one-character separator. *)
Fixpoint split (sep : ascii) (s : string) : list string :=
  match s with
  | EmptyString => [EmptyString]
  | String c s' =>
      if Ascii.eqb c sep then EmptyString :: split sep s'
      else match split sep s' with
           | h :: t => String c h :: t
           | [] => [String c EmptyString]
           end
  end.

Definition lower_char (c : ascii) : ascii :=
  if between 65 90 c then ascii_of_nat (code c + 32) else c.

Fixpoint lower (s : string) : string :=
  match s with
  | EmptyString => EmptyString
  | String c s' => String (lower_char c) (lower s')
  end.

Fixpoint contains (c : ascii) (s : string) : bool :=
  match s with
  | EmptyString => false
  | String d s' => Ascii.eqb c d || contains c s'
  end.

Fixpoint repeat0 (n : nat) : string :=
  match n with
  | O => EmptyString
  | S n' => String "0" (repeat0 n')
  end.

Definition hex_digit (n : nat) : ascii :=
  if (n <? 10)%nat then ascii_of_nat (48 + n) else ascii_of_nat (87 + n).

(** One character of [repr(s)], [q] being the quote in use. *)
Definition repr_char (q c : ascii) : string :=
  if Ascii.eqb c q || Ascii.eqb c "\" then String "\" (String c EmptyString)
  else if (code c =? 9)%nat then "\t"
  else if (code c =? 10)%nat then "\n"
  else if (code c =? 13)%nat then "\r"
  else if is_printable c then String c EmptyString
  else String "\" (String "x"
         (String (hex_digit (code c / 16)) (String (hex_digit (code c mod 16)) EmptyString))).

Fixpoint repr_body (q : ascii) (s : string) : string :=
  match s with
  | EmptyString => EmptyString
  | String c s' => repr_char q c ++ repr_body q s'
  end.

Definition dquote : ascii := ascii_of_nat 34.

(** [repr(s)]: single quotes, unless [s] has a single quote and no double one. *)
Definition repr (s : string) : string :=
  let q : ascii := if contains "'" s && negb (contains dquote s) then dquote else "'"%char in
  String q (repr_body q s ++ String q EmptyString).

(** [str(n)] for an [int]. *)
Definition of_Z (z : Z) : string := NilZero.string_of_int (Z.to_int z).

Definition of_nat (n : nat) : string := of_Z (Z.of_nat n).

End PyStr.

(** ** Python floats (binary64) *)

Module PyFloat.
Local Open Scope Z_scope.

Definition float : Type := spec_float.

Definition prec : Z := 53.
Definition emax : Z := 1024.

Definition eqb (x y : float) : bool :=
  match x, y with
  | S754_zero a, S754_zero b => Bool.eqb a b
  | S754_infinity a, S754_infinity b => Bool.eqb a b
  | S754_nan, S754_nan => true
  | S754_finite a m e, S754_finite b n f => Bool.eqb a b && Pos.eqb m n && Z.eqb e f
  | _, _ => false
  end.

(** The binary64 value nearest to [m * 10^e10] ([0 <= m]), ties to even,
    with the sign [neg]: what the C library [strtod] of CPython computes
    from the digits of a literal. *)
Definition of_decimal (neg : bool) (m e10 : Z) : float :=
  if m <=? 0 then S754_zero neg
  else
    let num := if 0 <=? e10 then m * 10 ^ e10 else m in
    let den := if 0 <=? e10 then 1 else 10 ^ (- e10) in
    SFdiv prec emax (S754_finite neg (Z.to_pos num) 0) (S754_finite false (Z.to_pos den) 0).

(** *** [float(s)] *)

(** The underscore pass of [_Py_string_to_number_with_underscores]: an
    underscore is allowed only between two digits. *)
Fixpoint drop_underscores (prev : ascii) (s : string) : option string :=
  match s with
  | EmptyString => if Ascii.eqb prev "_" then None else Some EmptyString
  | String c s' =>
      if Ascii.eqb c "_" then
        if PyStr.is_digit prev then drop_underscores c s' else None
      else if Ascii.eqb prev "_" && negb (PyStr.is_digit c) then None
      else option_map (String c) (drop_underscores c s')
  end.

(** The longest prefix of digits and the rest. *)
Fixpoint span_digits (s : string) : string * string :=
  match s with
  | String c s' =>
      if PyStr.is_digit c then
        let (d, r) := span_digits s' in (String c d, r)
      else (EmptyString, s)
  | EmptyString => (EmptyString, EmptyString)
  end.

Fixpoint digits_value (acc : Z) (s : string) : Z :=
  match s with
  | EmptyString => acc
  | String c s' => digits_value (10 * acc + (Z.of_nat (PyStr.code c) - 48)) s'
  end.

Definition take_sign (s : string) : bool * string :=
  match s with
  | String "-" s' => (true, s')
  | String "+" s' => (false, s')
  | _ => (false, s)
  end.

(** The exponent part: empty, or [e]/[E], an optional sign and digits. *)
Definition parse_exponent (s : string) : option Z :=
  match s with
  | EmptyString => Some 0
  | String c s' =>
      if Ascii.eqb (PyStr.lower_char c) "e" then
        let (neg, s1) := take_sign s' in
        let (ds, rest) := span_digits s1 in
        if PyStr.is_empty ds || negb (PyStr.is_empty rest) then None
        else Some (if neg then - digits_value 0 ds else digits_value 0 ds)
      else None
  end.

(** A decimal literal without sign: digits, an optional point and digits,
    an optional exponent; at least one digit before the exponent. *)
Definition parse_number (neg : bool) (s : string) : option float :=
  let (ip, r1) := span_digits s in
  let (fp, r2) :=
    match r1 with
    | String "." r => span_digits r
    | _ => (EmptyString, r1)
    end in
  if PyStr.is_empty ip && PyStr.is_empty fp then None
  else
    match parse_exponent r2 with
    | None => None
    | Some e =>
        Some (of_decimal neg (digits_value 0 (ip ++ fp))
                (e - Z.of_nat (String.length fp)))
    end.

(** The white space [float] removes from the two ends of its argument.
    [PyFloat_FromString] strips with C's [isspace]: the codes 9 to 13 and
    32.  Before that, [_PyUnicode_TransformDecimalAndSpaceToASCII] has turned
    every space above 127 into [' ']: below 256 these are the codes 133 and
    160.  The separators 28 to 31, which [str.strip] removes, are left where
    they are, and make the literal invalid. *)
Definition is_blank (c : ascii) : bool :=
  PyStr.between 9 13 c || (PyStr.code c =? 32)%nat ||
  (PyStr.code c =? 133)%nat || (PyStr.code c =? 160)%nat.

Fixpoint lstrip_blanks (s : string) : string :=
  match s with
  | String c s' => if is_blank c then lstrip_blanks s' else s
  | EmptyString => EmptyString
  end.

Fixpoint rstrip_blanks (s : string) : string :=
  match s with
  | String c s' =>
      let r := rstrip_blanks s' in
      if is_blank c && PyStr.is_empty r then EmptyString else String c r
  | EmptyString => EmptyString
  end.

Definition strip_blanks (s : string) : string := rstrip_blanks (lstrip_blanks s).

Definition parse (s : string) : option float :=
  match drop_underscores "000" (strip_blanks s) with
  | None => None
  | Some t =>
      let (neg, body) := take_sign t in
      let l := PyStr.lower body in
      if String.eqb l "inf" || String.eqb l "infinity" then Some (S754_infinity neg)
      else if String.eqb l "nan" then Some S754_nan
      else parse_number neg body
  end.

(** [float(s)] for a [str] argument. *)
Definition of_string (s : string) : result float :=
  match parse s with
  | Some f => Ok f
  | None => Raise (ValueError ("could not convert string to float: " ++ PyStr.repr s))
  end.

(** *** [int(x)] for a [float] argument: truncation towards zero. *)
Definition to_int (x : float) : result Z :=
  match x with
  | S754_zero _ => Ok 0
  | S754_infinity _ => Raise (OverflowError "cannot convert float infinity to integer")
  | S754_nan => Raise (ValueError "cannot convert float NaN to integer")
  | S754_finite s m e =>
      let a := if 0 <=? e then Zpos m * 2 ^ e else Zpos m / 2 ^ (- e) in
      Ok (if s then - a else a)
  end.

(** *** [repr(x)]: the shortest decimal string that reads back as [x],
    the nearest to [x] among the shortest, in the layout of format ['r']. *)

(** [x < 10^k] for the positive rational [x = num / den]. *)
Definition lt_pow10 (num den k : Z) : bool :=
  if 0 <=? k then num <? den * 10 ^ k else num * 10 ^ (- k) <? den.

Fixpoint search_up (fuel : nat) (num den k : Z) : Z :=
  match fuel with
  | O => k
  | S fuel' => if lt_pow10 num den k then k else search_up fuel' num den (k + 1)
  end.

Fixpoint search_down (fuel : nat) (num den k : Z) : Z :=
  match fuel with
  | O => k
  | S fuel' => if lt_pow10 num den (k - 1) then search_down fuel' num den (k - 1) else k
  end.

(** The [k] with [10^(k-1) <= num/den < 10^k]. *)
Definition decimal_exponent (num den : Z) : Z :=
  if lt_pow10 num den 0 then search_down 400 num den 0 else search_up 400 num den 0.

(** The [p]-digit candidate for [x = num/den], if one reads back as [x]:
    the integer [c] with [c * 10^(k-p)] nearest to [x]. *)
Definition candidate (x : float) (num den k p : Z) : option Z :=
  let n := num * 10 ^ Z.max (p - k) 0 in
  let d := den * 10 ^ Z.max (k - p) 0 in
  let lo := n / d in
  let r := n mod d in
  let ok c := eqb (of_decimal false c (k - p)) x in
  match ok lo, ok (lo + 1) with
  | true, true =>
      match 2 * r ?= d with
      | Lt => Some lo
      | Gt => Some (lo + 1)
      | Eq => Some (if Z.even lo then lo else lo + 1)
      end
  | true, false => Some lo
  | false, true => Some (lo + 1)
  | false, false => None
  end.

Fixpoint shortest (fuel : nat) (x : float) (num den k p : Z) : Z * Z :=
  match fuel with
  | O => (num * 10 ^ Z.max (p - k) 0 / (den * 10 ^ Z.max (k - p) 0), p)
  | S fuel' =>
      match candidate x num den k p with
      | Some c => (c, p)
      | None => shortest fuel' x num den k (p + 1)
      end
  end.

Fixpoint strip_zeros (s : string) : string :=
  match s with
  | String c s' =>
      let r := strip_zeros s' in
      if Ascii.eqb c "0" && PyStr.is_empty r then EmptyString else String c r
  | EmptyString => EmptyString
  end.

(** The digits [d1 d2 ... dn] and the exponent [decpt] of
    [|x| = 0.d1d2...dn * 10^decpt], as [_Py_dg_dtoa] returns them in mode 0. *)
Definition dtoa (m : positive) (e : Z) : string * Z :=
  let num := if 0 <=? e then Zpos m * 2 ^ e else Zpos m in
  let den := if 0 <=? e then 1 else 2 ^ (- e) in
  let k := decimal_exponent num den in
  let (c, p) := shortest 17 (S754_finite false m e) num den k 1 in
  let ds := PyStr.of_Z c in
  (strip_zeros ds, k + Z.of_nat (String.length ds) - p).

Definition exponent_string (x : Z) : string :=
  let a := PyStr.of_Z (Z.abs x) in
  String (if (x <? 0)%Z then "-"%char else "+"%char)
    (if (String.length a <? 2)%nat then String "0" a else a).

(** The layout of [format_float_short] for ['r'] with [Py_DTSF_ADD_DOT_0]. *)
Definition layout (ds : string) (decpt : Z) : string :=
  let n := Z.of_nat (String.length ds) in
  if (decpt <=? -4) || (16 <? decpt) then
    String.substring 0 1 ds
    ++ (if 1 <? n then String "." (String.substring 1 (String.length ds - 1) ds) else EmptyString)
    ++ String "e" (exponent_string (decpt - 1))
  else if decpt <=? 0 then
    "0." ++ PyStr.repeat0 (Z.to_nat (- decpt)) ++ ds
  else if n <=? decpt then
    ds ++ PyStr.repeat0 (Z.to_nat (decpt - n)) ++ ".0"
  else
    String.substring 0 (Z.to_nat decpt) ds
    ++ String "." (String.substring (Z.to_nat decpt) (String.length ds - Z.to_nat decpt) ds).

(** [repr(x)], which is also [str(x)]. *)
Definition repr (x : float) : string :=
  match x with
  | S754_zero s => if s then "-0.0" else "0.0"
  | S754_infinity s => if s then "-inf" else "inf"
  | S754_nan => "nan"
  | S754_finite s m e =>
      let (ds, decpt) := dtoa m e in
      (if s then "-" else EmptyString) ++ layout ds decpt
  end.

End PyFloat.

(** ** Python values held in the cells of a job table *)

(** A cell holds a scalar or a list of scalars.  [PNA] and [PNaT] are the
    pandas markers [pd.NA] and [pd.NaT]; [PObj] is any other object (a date,
    a dict, ...), known by its [str] and [repr], which [pd.isna] takes for a
    scalar that is present. *)
Inductive scalar : Type :=
| PNone
| PNA
| PNaT
| PBool (b : bool)
| PInt (z : Z)
| PFloat (x : PyFloat.float)
| PStr (s : string)
| PObj (str_ repr_ : string).

Inductive pyval : Type :=
| Scalar (x : scalar)
| PList (xs : list scalar).

Coercion Scalar : scalar >-> pyval.

(** The text of [str(x)].  For an [int] of more than 4300 digits [str]
    raises instead: see [str_of] below. *)
Definition scalar_str (x : scalar) : string :=
  match x with
  | PNone => "None"
  | PNA => "<NA>"
  | PNaT => "NaT"
  | PBool b => if b then "True" else "False"
  | PInt z => PyStr.of_Z z
  | PFloat f => PyFloat.repr f
  | PStr s => s
  | PObj s _ => s
  end.

Definition scalar_repr (x : scalar) : string :=
  match x with
  | PStr s => PyStr.repr s
  | PObj _ r => r
  | _ => scalar_str x
  end.

(** [", ".join(parts)] *)
Fixpoint join_comma (parts : list string) : string :=
  match parts with
  | [] => EmptyString
  | [p] => p
  | p :: rest => p ++ ", " ++ join_comma rest
  end.

(** The text of [str(value)], when [str] returns. *)
Definition py_str (v : pyval) : string :=
  match v with
  | Scalar x => scalar_str x
  | PList xs => "[" ++ join_comma (map scalar_repr xs) ++ "]"
  end.

(** [sys.int_max_str_digits], at its default: from CPython 3.11 on, [str]
    and [repr] of an [int] of more than this many decimal digits raise
    [ValueError], so [str(10**4300)] raises and [str(10**4300 - 1)] does
    not. *)
Definition int_max_str_digits : Z := 4300.

Definition scalar_str_raises (x : scalar) : bool :=
  match x with
  | PInt z => (10 ^ int_max_str_digits <=? Z.abs z)%Z
  | _ => false
  end.

(** Whether [str(value)] raises: the [str] of a list takes the [repr] of
    its elements. *)
Definition str_raises (v : pyval) : bool :=
  match v with
  | Scalar x => scalar_str_raises x
  | PList xs => existsb scalar_str_raises xs
  end.

Definition str_limit_error : exn :=
  ValueError "Exceeds the limit (4300 digits) for integer string conversion; use sys.set_int_max_str_digits() to increase the limit".

(** [str(value)] *)
Definition str_of (v : pyval) : result string :=
  if str_raises v then Raise str_limit_error else Ok (py_str v).

(** [value is None] *)
Definition is_None (v : pyval) : bool :=
  match v with
  | Scalar PNone => true
  | _ => false
  end.

(** ** [pd.isna] and the truth value of its result *)

Module Pandas.

(** [pandas._libs.missing.checknull] *)
Definition checknull (x : scalar) : bool :=
  match x with
  | PNone | PNA | PNaT => true
  | PFloat S754_nan => true
  | _ => false
  end.

(** [pd.isna] answers a [bool] for a scalar and an array of [bool]s, one
    per element, for a list. *)
Inductive isna_result : Type :=
| IsnaBool (b : bool)
| IsnaArray (bs : list bool).

Definition isna (v : pyval) : isna_result :=
  match v with
  | Scalar x => IsnaBool (checknull x)
  | PList xs => IsnaArray (map checknull xs)
  end.

(** [bool(r)], as the [if] of the cleaning loop takes it.  An array of
    one element has the truth value of that element; an array of two or
    more has none and NumPy raises.  On the empty array NumPy before 2.2
    answers [False] (with a deprecation warning) and NumPy from 2.2 on
    raises: [legacy] chooses the former. *)
Definition truth (legacy : bool) (r : isna_result) : result bool :=
  match r with
  | IsnaBool b => Ok b
  | IsnaArray [] =>
      if legacy then Ok false
      else Raise (ValueError
        "The truth value of an empty array is ambiguous. Use `array.size > 0` to check that an array is not empty.")
  | IsnaArray [b] => Ok b
  | IsnaArray (_ :: _ :: _) =>
      Raise (ValueError
        "The truth value of an array with more than one element is ambiguous. Use a.any() or a.all()")
  end.

End Pandas.

(** ** The cleaning of one field (lines 90-116 of [app.py]) *)

Definition bind_result {A B} (r : result A) (k : A -> result B) : result B :=
  match r with
  | Ok a => k a
  | Raise e => Raise e
  end.

(** [try: body  except (ValueError, TypeError): handler] *)
Definition except_ValueError_TypeError {A} (body : result A) (handler : A) : result A :=
  match body with
  | Ok a => Ok a
  | Raise e => if is_ValueError_or_TypeError e then Ok handler else Raise e
  end.

Definition count_fields : list string :=
  ["company_reviews_count"; "vacancy_count"; "min_amount"; "max_amount"].

Definition array_fields : list string := ["skills"; "emails"].

(** [key in fields] *)
Definition key_in (key : string) (fields : list string) : bool :=
  existsb (String.eqb key) fields.

(** [int(float(str(value))) if str(value) != 'nan' else None]: the
    condition is evaluated first, and the second [str(value)] gives what the
    first gave. *)
Definition to_count (value : pyval) : result pyval :=
  bind_result (str_of value) (fun s =>
  if negb (String.eqb s "nan") then
    bind_result (PyFloat.of_string s) (fun f =>
    bind_result (PyFloat.to_int f) (fun z => Ok (Scalar (PInt z))))
  else Ok (Scalar PNone)).

(** [float(str(value)) if str(value) != 'nan' else None] *)
Definition to_rating (value : pyval) : result pyval :=
  bind_result (str_of value) (fun s =>
  if negb (String.eqb s "nan") then
    bind_result (PyFloat.of_string s) (fun f => Ok (Scalar (PFloat f)))
  else Ok (Scalar PNone)).

(** [str(value) if value is not None else None] *)
Definition to_text (value : pyval) : result pyval :=
  if negb (is_None value) then
    bind_result (str_of value) (fun s => Ok (Scalar (PStr s)))
  else Ok (Scalar PNone).

(** [[skill.strip() for skill in value.split(',') if skill.strip()]] *)
Definition split_skills (s : string) : list string :=
  map PyStr.strip
    (filter (fun skill => negb (PyStr.is_empty (PyStr.strip skill))) (PyStr.split "," s)).

Definition to_array (value : pyval) : pyval :=
  match value with
  | Scalar (PStr s) => PList (map PStr (split_skills s))
  | PList xs => PList xs
  | _ => Scalar PNone
  end.

(** The value stored under [key] in the cleaned job, or the exception
    that leaves the loop. *)
Definition clean_value (legacy : bool) (key : string) (value : pyval) : result pyval :=
  bind_result (Pandas.truth legacy (Pandas.isna value)) (fun na =>
  if na then Ok (Scalar PNone)
  else if key_in key count_fields && negb (is_None value) then
    except_ValueError_TypeError (to_count value) (Scalar PNone)
  else if key_in key array_fields && negb (is_None value) then
    Ok (to_array value)
  else if String.eqb key "company_rating" && negb (is_None value) then
    except_ValueError_TypeError (to_rating value) (Scalar PNone)
  else
    to_text value).

(** ** Dictionaries and tables *)

(** A Python [dict] with string keys: the items in insertion order, each
    key once. *)
Definition dict : Type := list (string * pyval).

(** [d[k] = v] *)
Fixpoint dict_set (d : dict) (k : string) (v : pyval) : dict :=
  match d with
  | [] => [(k, v)]
  | (k', v') :: d' =>
      if String.eqb k' k then (k', v) :: d' else (k', v') :: dict_set d' k v
  end.

(** [d.get(k)] *)
Fixpoint dict_get (d : dict) (k : string) : option pyval :=
  match d with
  | [] => None
  | (k', v') :: d' => if String.eqb k' k then Some v' else dict_get d' k
  end.

(** [dict(items)] *)
Definition dict_of_items (items : list (string * pyval)) : dict :=
  fold_left (fun d kv => dict_set d (fst kv) (snd kv)) items [].

(** A [pandas.DataFrame]: the column labels and the rows of cells. *)
Record DataFrame : Type := mkDataFrame {
  columns : list string;
  data : list (list pyval)
}.

(** [pd.DataFrame()] *)
Definition empty_frame : DataFrame := mkDataFrame [] [].

(** [df.empty]: some axis has length 0. *)
Definition df_empty (df : DataFrame) : bool :=
  (List.length (columns df) =? 0)%nat || (List.length (data df) =? 0)%nat.

(** [len(df)] *)
Definition df_len (df : DataFrame) : nat := List.length (data df).

(** [df.to_dict('records')] *)
Definition to_dict_records (df : DataFrame) : list dict :=
  map (fun cells => dict_of_items (combine (columns df) cells)) (data df).

(** What a call can hand back where a table is expected. *)
Inductive pyobj : Type :=
| ONone
| OFrame (df : DataFrame)
| OOther (type_name : string).

(** [obj.empty] *)
Definition attr_empty (o : pyobj) : result bool :=
  match o with
  | OFrame df => Ok (df_empty df)
  | ONone => Raise (AttributeError "'NoneType' object has no attribute 'empty'")
  | OOther t => Raise (AttributeError ("'" ++ t ++ "' object has no attribute 'empty'"))
  end.

(** [len(obj)] and [obj.to_dict('records')], used on tables only. *)
Definition obj_len (o : pyobj) : result nat :=
  match o with
  | OFrame df => Ok (df_len df)
  | ONone => Raise (TypeError "object of type 'NoneType' has no len()")
  | OOther t => Raise (TypeError ("object of type '" ++ t ++ "' has no len()"))
  end.

Definition obj_to_dict_records (o : pyobj) : result (list dict) :=
  match o with
  | OFrame df => Ok (to_dict_records df)
  | ONone => Raise (AttributeError "'NoneType' object has no attribute 'to_dict'")
  | OOther t => Raise (AttributeError ("'" ++ t ++ "' object has no attribute 'to_dict'"))
  end.

(** The loop over [job.items()] of lines 90-116, from the cleaned job built
    so far. *)
Fixpoint clean_items (legacy : bool) (items : list (string * pyval)) (cleaned_job : dict)
  : result dict :=
  match items with
  | [] => Ok cleaned_job
  | (key, value) :: rest =>
      bind_result (clean_value legacy key value) (fun c =>
      clean_items legacy rest (dict_set cleaned_job key c))
  end.

(** ** The outside world *)

Inductive level : Type := INFO | WARNING | ERROR.

(** What the code does to the outside, in order, each call with the answer
    it got. *)
Inductive event : Type :=
| Log (lvl : level) (msg : string)
| ScrapeJobs (site_name : list string) (search_term location : string)
    (results_wanted hours_old : nat) (country_indeed : string)
    (answer : result pyobj)
| Now (iso : string)
| Upsert (table : string) (batch : list dict) (on_conflict : string)
    (failure : option exn)
| Sleep (seconds : nat)
| CreateClient (url key : string) (failure : option exn)
| SelectProbe (table : string) (failure : option exn).

(** The behaviour of the outside, free to depend on everything done so far
    and, for the store, on a state [S] of its own. *)
Record Env (S : Type) : Type := mkEnv {
  numpy_legacy : bool;
  getenv : string -> option string;
  create_client : list event -> string -> string -> option exn;
  select_probe : S -> list event -> option exn;
  scrape_jobs : list event -> list string -> string -> string -> nat -> nat -> string
                -> result pyobj;
  upsert_execute : S -> list event -> list dict -> S * option exn;
  now_isoformat : list event -> string
}.
Arguments numpy_legacy {S} _.
Arguments getenv {S} _ _.
Arguments create_client {S} _ _ _ _.
Arguments select_probe {S} _ _ _.
Arguments scrape_jobs {S} _ _ _ _ _ _ _ _.
Arguments upsert_execute {S} _ _ _ _.
Arguments now_isoformat {S} _ _.

Record world (S : Type) : Type := mkWorld {
  store : S;
  trace : list event
}.
Arguments mkWorld {S} _ _.
Arguments store {S} _.
Arguments trace {S} _.

(** Computations that act on the world and may raise; the world reached
    is kept in both cases. *)
Definition M (S A : Type) : Type := world S -> result A * world S.

Definition ret {S A} (a : A) : M S A := fun w => (Ok a, w).

Definition raise {S A} (e : exn) : M S A := fun w => (Raise e, w).

Definition bind {S A B} (m : M S A) (k : A -> M S B) : M S B :=
  fun w =>
    match m w with
    | (Ok a, w') => k a w'
    | (Raise e, w') => (Raise e, w')
    end.

(** [try: body  except Exception as e: handler e] *)
Definition try_except {S A} (body : M S A) (handler : exn -> M S A) : M S A :=
  fun w =>
    match body w with
    | (Ok a, w') => (Ok a, w')
    | (Raise e, w') => handler e w'
    end.

Definition lift {S A} (r : result A) : M S A := fun w => (r, w).

Definition emit {S} (e : event) : M S unit :=
  fun w => (Ok tt, mkWorld (store w) (trace w ++ [e])).

Declare Scope py_scope.
Delimit Scope py_scope with py.
Notation "x <- m ;; k" := (bind m (fun x => k))
  (at level 61, m at next level, right associativity) : py_scope.
Notation "m ;;; k" := (bind m (fun _ => k))
  (at level 61, right associativity) : py_scope.
Local Open Scope py_scope.

(** [logger.info], [logger.warning], [logger.error] *)
Definition log {S} (lvl : level) (msg : string) : M S unit := emit (Log lvl msg).

(** [time.sleep(seconds)] *)
Definition sleep {S} (seconds : nat) : M S unit := emit (Sleep seconds).

(** ** The scraper *)

(** The fields [__init__] sets besides the client. *)
Record JobScraper : Type := mkJobScraper {
  locations : list string;
  sites : list string;
  search_term : string;
  results_per_location : nat
}.

(** The configuration of lines 37-49. *)
Definition configured_scraper : JobScraper :=
  mkJobScraper
    ["Bengaluru, IN"; "Hyderabad, IN"; "New Delhi, IN"; "Gurgaon, IN";
     "Pune, IN"; "Mumbai, IN"; "Chennai, IN"]
    ["naukri"; "linkedin"]
    "product manager"
    10.

(** [range(0, stop, step)] *)
Definition py_range (stop step : nat) : list nat :=
  map (fun j => j * step) (seq 0 ((stop + step - 1) / step)).

(** [l[i:j]] *)
Definition slice {A} (l : list A) (i j : nat) : list A := firstn (j - i) (skipn i l).

Section Pipeline.

Context {S : Type}.
Variable env : Env S.

Definition of_failure (f : option exn) : result unit :=
  match f with
  | None => Ok tt
  | Some e => Raise e
  end.

(** [datetime.now().isoformat()] *)
Definition datetime_now_isoformat : M S string :=
  fun w =>
    let iso := now_isoformat env (trace w) in
    (Ok iso, mkWorld (store w) (trace w ++ [Now iso])).

(** [scrape_jobs(site_name=..., ..., country_indeed=...)] of jobspy *)
Definition call_scrape_jobs (site_name : list string) (term location : string)
  (results_wanted hours_old : nat) (country_indeed : string) : M S pyobj :=
  fun w =>
    let answer :=
      scrape_jobs env (trace w) site_name term location results_wanted hours_old country_indeed in
    (answer,
     mkWorld (store w)
       (trace w ++ [ScrapeJobs site_name term location results_wanted hours_old
                      country_indeed answer])).

(** [self.supabase.table(table).upsert(batch, on_conflict=key).execute()] *)
Definition call_upsert (table : string) (batch : list dict) (on_conflict : string) : M S unit :=
  fun w =>
    let (s', failure) := upsert_execute env (store w) (trace w) batch in
    (of_failure failure, mkWorld s' (trace w ++ [Upsert table batch on_conflict failure])).

(** [create_client(url, key)] *)
Definition call_create_client (url key : string) : M S unit :=
  fun w =>
    let failure := create_client env (trace w) url key in
    (of_failure failure, mkWorld (store w) (trace w ++ [CreateClient url key failure])).

(** [self.supabase.table(table).select("id").limit(1).execute()] *)
Definition call_select_probe (table : string) : M S unit :=
  fun w =>
    let failure := select_probe env (store w) (trace w) in
    (of_failure failure, mkWorld (store w) (trace w ++ [SelectProbe table failure])).

(** [not value] for what [os.getenv] answers. *)
Definition falsy (o : option string) : bool :=
  match o with
  | None => true
  | Some s => PyStr.is_empty s
  end.

(** [JobScraper.__init__] *)
Definition JobScraper_init : M S JobScraper :=
  let supabase_url := getenv env "SUPABASE_URL" in
  let supabase_key := getenv env "SUPABASE_ANON_KEY" in
  if falsy supabase_url || falsy supabase_key then
    raise (ValueError "SUPABASE_URL and SUPABASE_ANON_KEY environment variables must be set")
  else
    try_except
      (call_create_client (match supabase_url with Some u => u | None => EmptyString end)
                          (match supabase_key with Some k => k | None => EmptyString end) ;;;
       call_select_probe "job_listings" ;;;
       log INFO "Supabase connection successful")
      (fun e =>
         log ERROR ("Supabase connection failed: " ++ exn_str e) ;;;
         raise e) ;;;
    ret configured_scraper.

(** [JobScraper.scrape_jobs_for_location] *)
Definition scrape_jobs_for_location (self : JobScraper) (location : string) : M S pyobj :=
  try_except
    (log INFO ("Scraping jobs for " ++ location) ;;;
     jobs <- call_scrape_jobs (sites self) (search_term self) location
               (results_per_location self) 720 "india" ;;
     found <- match jobs with
              | ONone => ret false
              | _ => empty <- lift (attr_empty jobs) ;; ret (negb empty)
              end ;;
     if (found : bool) then
       n <- lift (obj_len jobs) ;;
       log INFO ("Found " ++ PyStr.of_nat n ++ " jobs for " ++ location) ;;;
       ret jobs
     else
       log WARNING ("No jobs found for " ++ location) ;;;
       ret (OFrame empty_frame))
    (fun e =>
       log ERROR ("Error scraping jobs for " ++ location ++ ": " ++ exn_str e) ;;;
       ret (OFrame empty_frame)).

(** One turn of the cleaning loop (lines 88-120): the fields, then the
    timestamp. *)
Definition clean_job (job : dict) : M S dict :=
  cleaned_job <- lift (clean_items (numpy_legacy env) job []) ;;
  iso <- datetime_now_isoformat ;;
  ret (dict_set cleaned_job "scraped_at" (Scalar (PStr iso))).

Fixpoint clean_jobs (jobs_list : list dict) (cleaned_jobs : list dict) : M S (list dict) :=
  match jobs_list with
  | [] => ret cleaned_jobs
  | job :: rest =>
      cleaned_job <- clean_job job ;;
      clean_jobs rest (cleaned_jobs ++ [cleaned_job])
  end.

(** The body of the batch loop (lines 125-138). *)
Definition insert_batch (batch : list dict) : M S unit :=
  try_except
    (call_upsert "job_listings" batch "id" ;;;
     log INFO ("Inserted/updated batch of " ++ PyStr.of_nat (List.length batch) ++ " jobs") ;;;
     sleep 2)
    (fun batch_error =>
       log ERROR ("Failed to insert batch: " ++ exn_str batch_error)).

Fixpoint for_each {A} (l : list A) (body : A -> M S unit) : M S unit :=
  match l with
  | [] => ret tt
  | x :: rest => body x ;;; for_each rest body
  end.

(** The batch loop (lines 123-138). *)
Definition insert_batches (cleaned_jobs : list dict) : M S unit :=
  let batch_size := 10 in
  for_each (py_range (List.length cleaned_jobs) batch_size)
    (fun i => insert_batch (slice cleaned_jobs i (i + batch_size))).

(** [JobScraper.insert_jobs_to_supabase] *)
Definition insert_jobs_to_supabase (jobs_df : pyobj) : M S unit :=
  empty <- lift (attr_empty jobs_df) ;;
  if (empty : bool) then
    log INFO "No jobs to insert"
  else
    try_except
      (jobs_list <- lift (obj_to_dict_records jobs_df) ;;
       cleaned_jobs <- clean_jobs jobs_list [] ;;
       insert_batches cleaned_jobs)
      (fun e =>
         log ERROR ("Error preparing jobs for insertion: " ++ exn_str e)).

(** The [try] block of the location loop (lines 152-158), from the running
    total to the new one. *)
Definition process_location (self : JobScraper) (location : string) (total_jobs : nat)
  : M S nat :=
  jobs_df <- scrape_jobs_for_location self location ;;
  empty <- lift (attr_empty jobs_df) ;;
  total_jobs' <- (if negb empty then
                    insert_jobs_to_supabase jobs_df ;;;
                    n <- lift (obj_len jobs_df) ;;
                    ret (total_jobs + n)
                  else ret total_jobs) ;;
  sleep 10 ;;;
  ret total_jobs'.

(** The location loop (lines 150-162) over any loop body: an exception of
    the body is logged and the loop goes on with the next location.  The
    total is the one before the turn: in [process_location] nothing that can
    raise follows the update of the total. *)
Fixpoint for_locations (body : string -> nat -> M S nat) (locs : list string)
  (total_jobs : nat) : M S nat :=
  match locs with
  | [] => ret total_jobs
  | location :: rest =>
      total_jobs' <- try_except (body location total_jobs)
                       (fun e =>
                          log ERROR ("Error processing " ++ location ++ ": " ++ exn_str e) ;;;
                          ret total_jobs) ;;
      for_locations body rest total_jobs'
  end.

(** [total_jobs] when the loop of [run_scrape] ends. *)
Definition scrape_all (self : JobScraper) : M S nat :=
  for_locations (process_location self) (locations self) 0.

(** [JobScraper.run_scrape] *)
Definition run_scrape (self : JobScraper) : M S bool :=
  log INFO "Starting job scraping..." ;;;
  total_jobs <- scrape_all self ;;
  log INFO ("Job scraping completed! Total jobs processed: " ++ PyStr.of_nat total_jobs) ;;;
  ret true.

(** The JSON answer of the endpoint and its HTTP status. *)
Record response : Type := mkResponse {
  http_status : nat;
  status : string;
  message : string;
  timestamp : string
}.

(** [trigger_scrape], the handler of [/scrape-jobs] *)
Definition trigger_scrape : M S response :=
  try_except
    (scraper <- JobScraper_init ;;
     success <- run_scrape scraper ;;
     if (success : bool) then
       iso <- datetime_now_isoformat ;;
       ret (mkResponse 200 "success" "Job scraping completed" iso)
     else
       iso <- datetime_now_isoformat ;;
       ret (mkResponse 500 "error" "Job scraping failed - check logs" iso))
    (fun e =>
       log ERROR ("Error in scrape trigger: " ++ exn_str e) ;;;
       iso <- datetime_now_isoformat ;;
       ret (mkResponse 500 "error" ("Error: " ++ exn_str e) iso)).

End Pipeline.

(** ** Observations on runs and traces *)

(** [runs m w r s' t]: started in [w], [m] ends with the result [r], leaves
    the store [s'] and has appended the events [t] to the trace. *)
Definition runs {S A} (m : M S A) (w : world S) (r : result A) (s' : S) (t : list event)
  : Prop :=
  m w = (r, mkWorld s' (trace w ++ t)).

Definition is_now (e : event) : bool :=
  match e with Now _ => true | _ => false end.

Definition is_upsert (e : event) : bool :=
  match e with Upsert _ _ _ _ => true | _ => false end.

Definition is_scrape (e : event) : bool :=
  match e with ScrapeJobs _ _ _ _ _ _ _ => true | _ => false end.

(** The upsert calls and the pauses of a trace, in order. *)
Definition calls_and_pauses (t : list event) : list event :=
  filter (fun e => match e with Upsert _ _ _ _ | Sleep _ => true | _ => false end) t.

(** The batches handed to [upsert], in order. *)
Definition upsert_batches (t : list event) : list (list dict) :=
  flat_map (fun e => match e with Upsert _ b _ _ => [b] | _ => [] end) t.

(** The locations handed to [scrape_jobs], in order. *)
Definition scraped_locations (t : list event) : list string :=
  flat_map (fun e => match e with ScrapeJobs _ _ l _ _ _ _ => [l] | _ => [] end) t.

(** The chunks the batch loop cuts [cleaned_jobs] into. *)
Definition batches (cleaned_jobs : list dict) : list (list dict) :=
  map (fun i => slice cleaned_jobs i (i + 10)) (py_range (List.length cleaned_jobs) 10).

(** What follows an upsert call in the batch loop, by its outcome. *)
Definition after_upsert (batch : list dict) (failure : option exn) : list event :=
  match failure with
  | None =>
      [Log INFO ("Inserted/updated batch of " ++ PyStr.of_nat (List.length batch) ++ " jobs");
       Sleep 2]
  | Some batch_error => [Log ERROR ("Failed to insert batch: " ++ exn_str batch_error)]
  end.

(** What the store can answer to an upsert call. *)
Definition store_answer {S} (env : Env S) (failure : option exn) : Prop :=
  exists s t batch, failure = snd (upsert_execute env s t batch).

(** The trace of the batch loop over the given chunks: one upsert call on
    [job_listings] keyed on [id] per chunk, with one of the [answers] of the
    store, each followed by [after_upsert]. *)
Inductive batch_trace (answers : option exn -> Prop)
  : list (list dict) -> list event -> Prop :=
| batch_trace_nil : batch_trace answers [] []
| batch_trace_cons batch failure rest t :
    answers failure ->
    batch_trace answers rest t ->
    batch_trace answers (batch :: rest)
      (Upsert "job_listings" batch "id" failure :: after_upsert batch failure ++ t).

(** A cleaned job: the cleaned fields of [job] with the timestamp [iso]. *)
Definition cleaned_from (legacy : bool) (job cleaned_job : dict) : Prop :=
  exists fields iso,
    clean_items legacy job [] = Ok fields /\
    cleaned_job = dict_set fields "scraped_at" (Scalar (PStr iso)).

(** What the provider answers when [scrape_jobs_for_location] calls it
    from the world [w]. *)
Definition provider_answer {S} (env : Env S) (self : JobScraper) (location : string)
  (w : world S) : result pyobj :=
  scrape_jobs env (trace w ++ [Log INFO ("Scraping jobs for " ++ location)])
    (sites self) (search_term self) location (results_per_location self) 720 "india".

(** The table [scrape_jobs_for_location] hands back for an answer of the
    provider. *)
Definition fetched_frame (answer : result pyobj) : DataFrame :=
  match answer with
  | Ok (OFrame d) => if df_empty d then empty_frame else d
  | _ => empty_frame
  end.

(** The line it logs after the call. *)
Definition fetch_log (location : string) (answer : result pyobj) : event :=
  match answer with
  | Ok (OFrame d) =>
      if df_empty d then Log WARNING ("No jobs found for " ++ location)
      else Log INFO ("Found " ++ PyStr.of_nat (df_len d) ++ " jobs for " ++ location)
  | Ok ONone => Log WARNING ("No jobs found for " ++ location)
  | Ok (OOther t) =>
      Log ERROR ("Error scraping jobs for " ++ location ++ ": "
                 ++ "'" ++ t ++ "' object has no attribute 'empty'")
  | Raise e => Log ERROR ("Error scraping jobs for " ++ location ++ ": " ++ exn_str e)
  end.

Definition fetch_trace (self : JobScraper) (location : string) (answer : result pyobj)
  : list event :=
  [Log INFO ("Scraping jobs for " ++ location);
   ScrapeJobs (sites self) (search_term self) location (results_per_location self)
     720 "india" answer;
   fetch_log location answer].

(** The number of records the fetches of a trace handed back. *)
Definition fetched_count (t : list event) : nat :=
  list_sum (map (fun e => match e with
                          | ScrapeJobs _ _ _ _ _ _ answer => df_len (fetched_frame answer)
                          | _ => 0
                          end) t).

(** The number of records in the batches whose upsert failed. *)
Definition failed_records (t : list event) : nat :=
  list_sum (map (fun e => match e with
                          | Upsert _ batch _ (Some _) => List.length batch
                          | _ => 0
                          end) t).

(** The fetches and the pauses between locations, in order: [Some l] for a
    fetch at [l], [None] for a pause of 10. *)
Definition partition_marks (t : list event) : list (option string) :=
  flat_map (fun e => match e with
                     | ScrapeJobs _ _ l _ _ _ _ => [Some l]
                     | Sleep 10 => [None]
                     | _ => []
                     end) t.

(** The two ways a write of a table that is not empty goes: every job is
    cleaned and the batch loop runs, or the cleaning of some job raises and
    the write ends with an error in the log. *)
Inductive write_trace (answers : option exn -> Prop) (legacy : bool) (jobs : list dict)
  : bool -> list event -> Prop :=
| write_done cleaned_jobs t :
    Forall2 (cleaned_from legacy) jobs cleaned_jobs ->
    batch_trace answers (batches cleaned_jobs) t ->
    write_trace answers legacy jobs true t
| write_aborted job e :
    In job jobs ->
    clean_items legacy job [] = Raise e ->
    write_trace answers legacy jobs false
      [Log ERROR ("Error preparing jobs for insertion: " ++ exn_str e)].

(** What the write stage adds in one turn of the location loop: nothing
    for an empty table, else the timestamps of the cleaning followed by a
    [write_trace]. *)
Definition partition_write (answers : option exn -> Prop) (legacy : bool) (df : DataFrame)
  (ti : list event) : Prop :=
  if df_empty df then ti = []
  else exists tc tw written,
      ti = (tc ++ tw)%list /\ forallb is_now tc = true /\
      write_trace answers legacy (to_dict_records df) written tw.

(** The trace of the location loop over [locs], from the total [total] to
    the total [total']: for each location the fetch, the write of what was
    fetched, and a pause of 10. *)
Inductive partition_trace (answers : option exn -> Prop) (legacy : bool) (self : JobScraper)
  : list string -> nat -> nat -> list event -> Prop :=
| partition_trace_nil total : partition_trace answers legacy self [] total total []
| partition_trace_cons location rest answer ti total total' t :
    partition_write answers legacy (fetched_frame answer) ti ->
    partition_trace answers legacy self rest (total + df_len (fetched_frame answer)) total' t ->
    partition_trace answers legacy self (location :: rest) total total'
      (fetch_trace self location answer ++ ti ++ Sleep 10 :: t)%list.

(** The events the write stage can add. *)
Definition is_writer_event (e : event) : bool :=
  match e with
  | Log _ _ | Now _ | Upsert _ _ _ _ | Sleep 2 => true
  | _ => false
  end.

(** The pause that follows an upsert call, by its outcome. *)
Definition pause_after (failure : option exn) : list event :=
  match failure with
  | None => [Sleep 2]
  | Some _ => []
  end.

Definition is_none {A} (o : option A) : bool :=
  match o with None => true | Some _ => false end.

(** Whether [__init__] goes through from the world [w]: both variables
    set, the client created, the probe answered. *)
Definition setup_succeeds {S} (env : Env S) (w : world S) : bool :=
  match getenv env "SUPABASE_URL", getenv env "SUPABASE_ANON_KEY" with
  | Some url, Some key =>
      negb (PyStr.is_empty url) && negb (PyStr.is_empty key) &&
      is_none (create_client env (trace w) url key) &&
      is_none (select_probe env (store w) (trace w ++ [CreateClient url key None]))
  | _, _ => false
  end.

(** The number of pauses of 2 and of upsert calls in a trace. *)
Definition chunk_pauses (t : list event) : nat :=
  List.length (filter (fun e => match e with Sleep 2 => true | _ => false end) t).

Definition upsert_calls (t : list event) : nat := List.length (upsert_batches t).

(** The number of upsert calls the store accepted. *)
Definition accepted_calls (t : list event) : nat :=
  List.length (filter (fun e => match e with Upsert _ _ _ None => true | _ => false end) t).

(** The reading of the run total that leaves out the records of failed
    batches: what was fetched less what was in a batch the store rejected. *)
Definition total_omits_failed_batches {S} (env : Env S) (self : JobScraper) (w : world S)
  : Prop :=
  forall s' total t,
    runs (scrape_all env self) w (Ok total) s' t ->
    total = fetched_count t - failed_records t.

(** The reading of the pauses as unconditional: in a run, as many pauses of
    2 as upsert calls, and a pause of 10 after the fetch of every location. *)
Definition pauses_are_unconditional {S} (env : Env S) (self : JobScraper) (w : world S)
  : Prop :=
  forall s' t,
    runs (run_scrape env self) w (Ok true) s' t ->
    chunk_pauses t = upsert_calls t /\
    partition_marks t = flat_map (fun l => [Some l; None]) (locations self).

(** The reading of the pauses of the writer as unconditional: a write
    makes three upsert calls, of sizes 10, 10 and 3, and pauses between each
    call and the next. *)
Definition pauses_between_calls {S} (env : Env S) (df : DataFrame) (w : world S) : Prop :=
  forall s' t,
    runs (insert_jobs_to_supabase env (OFrame df)) w (Ok tt) s' t ->
    map (@List.length dict) (upsert_batches t) = [10; 10; 3] /\
    exists rest,
      map is_upsert (calls_and_pauses t) = true :: false :: true :: false :: true :: rest.

(** ** Sample worlds

    A table of [n] jobs, a provider that answers by location, and a store
    that counts the rows it took and either accepts or rejects every
    upsert. *)

Definition sample_frame (n : nat) : DataFrame :=
  mkDataFrame ["id"; "title"; "min_amount"; "skills"]
    (map (fun i => [Scalar (PStr ("job-" ++ PyStr.of_nat i));
                    Scalar (PStr "Product Manager");
                    Scalar (PStr "42.0");
                    Scalar (PStr "python, sql ,  ml")])
         (seq 1 n)).

Definition sample_env (legacy accept : bool) (answer : string -> result pyobj) : Env nat :=
  mkEnv nat legacy
    (fun _ => Some "configured")
    (fun _ _ _ => None)
    (fun _ _ => None)
    (fun _ _ _ location _ _ _ => answer location)
    (fun rows _ batch =>
       if accept then (rows + List.length batch, None)
       else (rows, Some (OtherException "APIError" "upsert rejected")))
    (fun _ => "2026-01-01T00:00:00").

Definition start : world nat := mkWorld 0 [].

(** A table of two jobs whose second has an infinite [min_amount], and a
    table whose one job has a list of two skills. *)
Definition infinite_amount_frame : DataFrame :=
  mkDataFrame ["id"; "title"; "min_amount"]
    [[Scalar (PStr "job-1"); Scalar (PStr "Product Manager");
      Scalar (PFloat (S754_finite false 5497558138880000 (-40)))];
     [Scalar (PStr "job-2"); Scalar (PStr "Program Manager");
      Scalar (PFloat (S754_infinity false))]].

Definition skills_list_frame : DataFrame :=
  mkDataFrame ["id"; "skills"]
    [[Scalar (PStr "job-1"); PList [PStr "python"; PStr "sql"]]].

(** [list(d.keys())] *)
Definition dict_keys (d : dict) : list string := map fst d.

(** [k in d] *)
Definition dict_has (d : dict) (k : string) : bool :=
  match dict_get d k with Some _ => true | None => false end.

(** The target type of a field: a cleaned value is [None], or an [int]
    under a count-like key, a list under a list-like key, a [float] under
    [company_rating], a [str] under any other key. *)
Definition conforms (key : string) (v : pyval) : bool :=
  match v with
  | Scalar PNone => true
  | Scalar (PInt _) => key_in key count_fields
  | PList _ => negb (key_in key count_fields) && key_in key array_fields
  | Scalar (PFloat _) =>
      negb (key_in key count_fields) && negb (key_in key array_fields) &&
      String.eqb key "company_rating"
  | Scalar (PStr _) =>
      negb (key_in key count_fields) && negb (key_in key array_fields) &&
      negb (String.eqb key "company_rating")
  | _ => false
  end.

Definition is_infinite (o : option PyFloat.float) : bool :=
  match o with
  | Some (S754_infinity _) => true
  | _ => false
  end.

(** Whether the cleaning of [value] under [key] raises: the truth value
    of [pd.isna(value)] is undefined; or the key is count-like, [str(value)]
    returns and reads as an infinity; or the key is of no special class and
    [str(value)] raises. *)
Definition cleaning_aborts (legacy : bool) (key : string) (value : pyval) : bool :=
  match Pandas.truth legacy (Pandas.isna value) with
  | Raise _ => true
  | Ok true => false
  | Ok false =>
      if key_in key count_fields then
        negb (str_raises value) && is_infinite (PyFloat.parse (py_str value))
      else if key_in key array_fields then false
      else if String.eqb key "company_rating" then false
      else str_raises value
  end.

(** The readings of the clock in a trace, in order. *)
Definition clock_readings (t : list event) : list string :=
  flat_map (fun e => match e with Now iso => [iso] | _ => [] end) t.

(** The events of a run that fetches no record: logs, calls of the
    provider and pauses of 10. *)
Definition is_idle_event (e : event) : bool :=
  match e with
  | Log _ _ | ScrapeJobs _ _ _ _ _ _ _ | Sleep 10 => true
  | _ => false
  end.

(** A log line other than the one of the handler of the location loop. *)
Definition not_partition_error (e : event) : bool :=
  match e with
  | Log ERROR msg => negb (String.prefix "Error processing " msg)
  | _ => true
  end.

(** Strings of decimal digits, and strings without the white space that
    [float] strips. *)
Fixpoint all_digits (s : string) : bool :=
  match s with
  | EmptyString => true
  | String c s' => PyStr.is_digit c && all_digits s'
  end.

Fixpoint no_blank (s : string) : bool :=
  match s with
  | EmptyString => true
  | String c s' => negb (PyFloat.is_blank c) && no_blank s'
  end.

(** Strings made of white space and commas only. *)
Fixpoint blank_or_commas (s : string) : bool :=
  match s with
  | EmptyString => true
  | String c s' => (PyStr.is_space c || Ascii.eqb c ",") && blank_or_commas s'
  end.

(** Whether no cell of a job makes the cleaning raise. *)
Definition no_cell_aborts (legacy : bool) (job : dict) : bool :=
  forallb (fun kv => negb (cleaning_aborts legacy (fst kv) (snd kv))) job.

(** * Properties *)

Local Open Scope list_scope.

(** ** Runs of a computation *)

Section Runs.

Context {S : Type}.
Implicit Types w : world S.

Lemma runs_ret {A} (a : A) w : runs (ret a) w (Ok a) (store w) [].
Proof. destruct w; unfold runs, ret; simpl; now rewrite app_nil_r. Qed.

Lemma runs_raise {A} (e : exn) w : runs (@raise S A e) w (Raise e) (store w) [].
Proof. destruct w; unfold runs, raise; simpl; now rewrite app_nil_r. Qed.

Lemma runs_lift {A} (r : result A) w : runs (lift r) w r (store w) [].
Proof. destruct w; unfold runs, lift; simpl; now rewrite app_nil_r. Qed.

Lemma runs_emit (e : event) w : runs (emit e) w (Ok tt) (store w) [e].
Proof. reflexivity. Qed.

Lemma runs_bind_ok {A B} (m : M S A) (k : A -> M S B) w a s1 t1 r s2 t2 :
  runs m w (Ok a) s1 t1 ->
  runs (k a) (mkWorld s1 (trace w ++ t1)) r s2 t2 ->
  runs (bind m k) w r s2 (t1 ++ t2).
Proof.
  unfold runs, bind; intros Hm Hk; rewrite Hm, Hk; simpl.
  now rewrite app_assoc.
Qed.

Lemma runs_bind_raise {A B} (m : M S A) (k : A -> M S B) w e s1 t1 :
  runs m w (Raise e) s1 t1 ->
  runs (bind m k) w (Raise e) s1 t1.
Proof. unfold runs, bind; intros Hm; now rewrite Hm. Qed.

Lemma runs_try_ok {A} (body : M S A) handler w a s1 t1 :
  runs body w (Ok a) s1 t1 ->
  runs (try_except body handler) w (Ok a) s1 t1.
Proof. unfold runs, try_except; intros Hm; now rewrite Hm. Qed.

Lemma runs_try_raise {A} (body : M S A) handler w e s1 t1 r s2 t2 :
  runs body w (Raise e) s1 t1 ->
  runs (handler e) (mkWorld s1 (trace w ++ t1)) r s2 t2 ->
  runs (try_except body handler) w r s2 (t1 ++ t2).
Proof.
  unfold runs, try_except; intros Hm Hk; rewrite Hm, Hk; simpl.
  now rewrite app_assoc.
Qed.

Lemma runs_fun {A} (m : M S A) w r1 s1 t1 r2 s2 t2 :
  runs m w r1 s1 t1 -> runs m w r2 s2 t2 -> r1 = r2 /\ s1 = s2 /\ t1 = t2.
Proof.
  unfold runs; intros H1 H2; rewrite H1 in H2.
  inversion H2 as [[Hr Hs Ht]]; apply app_inv_head in Ht; auto.
Qed.

End Runs.

(** ** The batch writer *)

Section Writer.

Context {S : Type}.
Variable env : Env S.
Implicit Types w : world S.

Lemma insert_batch_runs batch w :
  runs (insert_batch env batch) w (Ok tt)
    (fst (upsert_execute env (store w) (trace w) batch))
    (Upsert "job_listings" batch "id" (snd (upsert_execute env (store w) (trace w) batch))
       :: after_upsert batch (snd (upsert_execute env (store w) (trace w) batch))).
Proof.
  unfold runs, insert_batch, try_except, bind, call_upsert, log, sleep, emit.
  destruct (upsert_execute env (store w) (trace w) batch) as [s' [e|]]; simpl;
    rewrite <- !app_assoc; reflexivity.
Qed.

Lemma for_each_insert_batch_runs bs w :
  exists s' t,
    runs (for_each bs (insert_batch env)) w (Ok tt) s' t /\
    batch_trace (store_answer env) bs t.
Proof.
  revert w; induction bs as [|b bs IH]; intros w; simpl.
  - exists (store w), []; split; [apply runs_ret | constructor].
  - pose proof (insert_batch_runs b w) as Hb.
    destruct (IH (mkWorld (fst (upsert_execute env (store w) (trace w) b))
                    (trace w ++ Upsert "job_listings" b "id"
                                  (snd (upsert_execute env (store w) (trace w) b))
                                :: after_upsert b (snd (upsert_execute env (store w) (trace w) b)))))
      as (s' & t & Ht & Hbt).
    exists s'; eexists; split.
    + eapply runs_bind_ok; [exact Hb | exact Ht].
    + simpl; constructor; [|exact Hbt].
      now exists (store w), (trace w), b.
Qed.

Lemma for_each_map {A B} (f : A -> B) (body : B -> M S unit) l w :
  for_each l (fun x => body (f x)) w = for_each (map f l) body w.
Proof.
  revert w; induction l as [|x l IH]; intros w; simpl; [reflexivity|].
  unfold bind; destruct (body (f x) w) as [[[]|e] w']; auto.
Qed.

Lemma insert_batches_runs cleaned_jobs w :
  exists s' t,
    runs (insert_batches env cleaned_jobs) w (Ok tt) s' t /\
    batch_trace (store_answer env) (batches cleaned_jobs) t.
Proof.
  destruct (for_each_insert_batch_runs (batches cleaned_jobs) w) as (s' & t & Ht & Hbt).
  exists s', t; split; [|exact Hbt].
  unfold runs, insert_batches, batches in *.
  now rewrite (for_each_map (fun i => slice cleaned_jobs i (i + 10)) (insert_batch env)).
Qed.

(** *** Cleaning *)

Lemma clean_job_runs job w :
  match clean_items (numpy_legacy env) job [] with
  | Ok fields =>
      runs (clean_job env job) w
        (Ok (dict_set fields "scraped_at" (Scalar (PStr (now_isoformat env (trace w))))))
        (store w) [Now (now_isoformat env (trace w))]
  | Raise e => runs (clean_job env job) w (Raise e) (store w) []
  end.
Proof.
  unfold runs, clean_job, bind, lift, datetime_now_isoformat, ret.
  destruct (clean_items (numpy_legacy env) job []); destruct w; simpl;
    now rewrite ?app_nil_r.
Qed.

Lemma clean_jobs_runs jobs acc w :
  exists r t,
    runs (clean_jobs env jobs acc) w r (store w) t /\
    forallb is_now t = true /\
    match r with
    | Ok cleaned_jobs =>
        exists cs, cleaned_jobs = (acc ++ cs)%list /\
                   Forall2 (cleaned_from (numpy_legacy env)) jobs cs
    | Raise e => exists job, In job jobs /\ clean_items (numpy_legacy env) job [] = Raise e
    end.
Proof.
  revert acc w; induction jobs as [|job jobs IH]; intros acc w; simpl.
  - exists (Ok acc), []; split; [apply runs_ret|split; [reflexivity|]].
    exists []; split; [now rewrite app_nil_r | constructor].
  - pose proof (clean_job_runs job w) as Hj.
    destruct (clean_items (numpy_legacy env) job []) as [fields|e] eqn:Hc.
    + set (c := dict_set fields "scraped_at" (Scalar (PStr (now_isoformat env (trace w))))) in *.
      destruct (IH (acc ++ [c])
                  (mkWorld (store w) (trace w ++ [Now (now_isoformat env (trace w))])))
        as (r & t & Ht & Hnow & Hr).
      exists r, ([Now (now_isoformat env (trace w))] ++ t); split; [|split].
      * eapply runs_bind_ok; [exact Hj | exact Ht].
      * simpl; exact Hnow.
      * destruct r as [cleaned|e].
        -- destruct Hr as (cs & -> & HF).
           exists (c :: cs); split; [now rewrite <- app_assoc|].
           constructor; [|exact HF].
           exists fields, (now_isoformat env (trace w)); auto.
        -- destruct Hr as (j & Hin & Hj'); exists j; split; [now right | exact Hj'].
    + exists (Raise e), []; split; [|split; [reflexivity|]].
      * now apply runs_bind_raise.
      * exists job; split; [now left | exact Hc].
Qed.

(** *** The whole of [insert_jobs_to_supabase] *)

Lemma insert_empty_runs df w :
  df_empty df = true ->
  runs (insert_jobs_to_supabase env (OFrame df)) w (Ok tt) (store w)
    [Log INFO "No jobs to insert"].
Proof.
  intros He; unfold runs, insert_jobs_to_supabase, bind, lift; simpl.
  now rewrite He.
Qed.

Lemma insert_jobs_runs df w :
  df_empty df = false ->
  exists s' tc tw written,
    runs (insert_jobs_to_supabase env (OFrame df)) w (Ok tt) s' (tc ++ tw) /\
    forallb is_now tc = true /\
    write_trace (store_answer env) (numpy_legacy env) (to_dict_records df) written tw /\
    (written = false -> s' = store w).
Proof.
  intros He.
  destruct (clean_jobs_runs (to_dict_records df) [] w) as (r & tc & Hc & Hnow & Hr).
  assert (Hhead : forall s' tw,
             runs (try_except
                     (bind (lift (obj_to_dict_records (OFrame df))) (fun jobs_list =>
                      bind (clean_jobs env jobs_list []) (fun cleaned_jobs =>
                      insert_batches env cleaned_jobs)))
                     (fun e => log ERROR ("Error preparing jobs for insertion: " ++ exn_str e)))
               w (Ok tt) s' tw ->
             runs (insert_jobs_to_supabase env (OFrame df)) w (Ok tt) s' tw).
  { intros s' tw H; unfold runs, insert_jobs_to_supabase, bind, lift in *; simpl.
    rewrite He; simpl; exact H. }
  destruct r as [cleaned|e].
  - destruct Hr as (cs & -> & HF); simpl in *.
    destruct (insert_batches_runs cs (mkWorld (store w) (trace w ++ tc)))
      as (s' & tw & Hw & Hbt).
    exists s', tc, tw, true; split; [|split; [exact Hnow|split]].
    + apply Hhead, runs_try_ok.
      change (tc ++ tw) with ([] ++ (tc ++ tw)).
      eapply runs_bind_ok; [apply runs_lift|].
      destruct w as [s0 t0]; simpl in *; rewrite app_nil_r.
      eapply runs_bind_ok; [exact Hc | exact Hw].
    + econstructor; eassumption.
    + discriminate.
  - destruct Hr as (job & Hin & Hj).
    exists (store w), tc, [Log ERROR ("Error preparing jobs for insertion: " ++ exn_str e)], false.
    split; [|split; [exact Hnow|split]].
    + apply Hhead.
      apply runs_try_raise with (e := e) (s1 := store w) (t1 := tc);
        [|exact (runs_emit _ (mkWorld (store w) (trace w ++ tc)))].
      change tc with ([] ++ tc).
      eapply runs_bind_ok; [apply runs_lift|].
      destruct w as [s0 t0]; simpl in *; rewrite app_nil_r.
      now apply runs_bind_raise.
    + econstructor; eassumption.
    + reflexivity.
Qed.

(** The write of a table never raises. *)
Lemma insert_jobs_total df w :
  exists s' t, runs (insert_jobs_to_supabase env (OFrame df)) w (Ok tt) s' t.
Proof.
  destruct (df_empty df) eqn:He.
  - eexists _, _; now apply insert_empty_runs.
  - destruct (insert_jobs_runs df w He) as (s' & tc & tw & b & H & _); eauto.
Qed.

End Writer.

(** ** The partition fetcher *)

Section Fetcher.

Context {S : Type}.
Variable env : Env S.
Implicit Types w : world S.

Lemma scrape_jobs_for_location_runs self location w :
  runs (scrape_jobs_for_location env self location) w
    (Ok (OFrame (fetched_frame (provider_answer env self location w))))
    (store w)
    (fetch_trace self location (provider_answer env self location w)).
Proof.
  unfold runs, scrape_jobs_for_location, try_except, bind, call_scrape_jobs, log, emit,
    fetch_trace, provider_answer, lift, ret; simpl.
  destruct (scrape_jobs env _ _ _ _ _ _ _) as [[|d|ty]|e]; simpl;
    try (destruct (df_empty d); simpl);
    rewrite <- ?app_assoc; reflexivity.
Qed.

End Fetcher.

(** ** The orchestrator *)

Section Orchestrator.

Context {S : Type}.
Variable env : Env S.
Implicit Types w : world S.

Lemma fetched_frame_empty answer :
  df_empty (fetched_frame answer) = true -> fetched_frame answer = empty_frame.
Proof.
  destruct answer as [[|d|ty]|e]; simpl; auto.
  destruct (df_empty d) eqn:Hd; auto; congruence.
Qed.

Lemma process_location_runs self location total w :
  exists s' ti,
    runs (process_location env self location total) w
      (Ok (total + df_len (fetched_frame (provider_answer env self location w))))
      s'
      (fetch_trace self location (provider_answer env self location w) ++ ti ++ [Sleep 10]) /\
    partition_write (store_answer env) (numpy_legacy env)
      (fetched_frame (provider_answer env self location w)) ti.
Proof.
  pose proof (scrape_jobs_for_location_runs env self location w) as Hf.
  remember (provider_answer env self location w) as answer eqn:Ha.
  remember (fetch_trace self location answer) as tf eqn:Htf.
  unfold process_location, partition_write.
  destruct (df_empty (fetched_frame answer)) eqn:He.
  - exists (store w), []; split; [|reflexivity].
    rewrite (fetched_frame_empty _ He) in *.
    change (df_len empty_frame) with 0; rewrite Nat.add_0_r, app_nil_l.
    eapply runs_bind_ok; [exact Hf|].
    reflexivity.
  - destruct (insert_jobs_runs env (fetched_frame answer)
                (mkWorld (store w) (trace w ++ tf)) He)
      as (s' & tc & tw & written & Hi & Hnow & Hw & _).
    exists s', (tc ++ tw); split; [|now exists tc, tw, written].
    eapply runs_bind_ok; [exact Hf|].
    unfold runs in Hi |- *; unfold bind at 1, lift at 1.
    cbn [attr_empty]; rewrite He.
    unfold bind at 1; cbn [negb].
    unfold bind at 1. rewrite Hi.
    unfold bind, lift, sleep, emit, ret; cbn [obj_len store trace].
    now rewrite <- !app_assoc.
Qed.

Lemma scrape_loop_runs self locs total w :
  exists s' total' t,
    runs (for_locations (process_location env self) locs total) w (Ok total') s' t /\
    partition_trace (store_answer env) (numpy_legacy env) self locs total total' t.
Proof.
  revert total w; induction locs as [|location rest IH]; intros total w; simpl.
  - exists (store w), total, []; split; [apply runs_ret | constructor].
  - destruct (process_location_runs self location total w) as (s1 & ti & Hp & Hw).
    set (answer := provider_answer env self location w) in *.
    destruct (IH (total + df_len (fetched_frame answer))
                (mkWorld s1 (trace w ++ fetch_trace self location answer ++ ti ++ [Sleep 10])))
      as (s' & total' & t & Ht & Hpt).
    exists s', total', (fetch_trace self location answer ++ ti ++ Sleep 10 :: t).
    split; [|now constructor].
    replace (fetch_trace self location answer ++ ti ++ Sleep 10 :: t)
      with ((fetch_trace self location answer ++ ti ++ [Sleep 10]) ++ t)
      by (now rewrite <- !app_assoc).
    eapply runs_bind_ok; [|exact Ht].
    apply runs_try_ok; exact Hp.
Qed.

(** The loop ends normally whatever its body does. *)
Lemma for_locations_total (body : string -> nat -> M S nat) locs total w :
  exists total' w', for_locations body locs total w = (Ok total', w').
Proof.
  revert total w; induction locs as [|location rest IH]; intros total w; simpl.
  - now exists total, w.
  - unfold bind at 1, try_except.
    destruct (body location total w) as [[total1|e] w1].
    + apply IH.
    + unfold bind at 1, log, emit; simpl. apply IH.
Qed.

(** One turn of the loop, for any body. *)
Lemma for_locations_step (body : string -> nat -> M S nat) location rest total w :
  for_locations body (location :: rest) total w =
  match body location total w with
  | (Ok total', w') => for_locations body rest total' w'
  | (Raise e, w') =>
      for_locations body rest total
        (mkWorld (store w')
           (trace w' ++ [Log ERROR ("Error processing " ++ location ++ ": " ++ exn_str e)]))
  end.
Proof.
  cbn [for_locations]; unfold bind at 1, try_except.
  destruct (body location total w) as [[total1|e] w1]; [reflexivity|].
  unfold bind at 1, log, emit; reflexivity.
Qed.

Lemma run_scrape_runs self w :
  exists s' total t,
    runs (run_scrape env self) w (Ok true) s'
      (Log INFO "Starting job scraping..." :: t ++
       [Log INFO ("Job scraping completed! Total jobs processed: " ++ PyStr.of_nat total)]) /\
    partition_trace (store_answer env) (numpy_legacy env) self (locations self) 0 total t.
Proof.
  destruct (scrape_loop_runs self (locations self) 0
              (mkWorld (store w) (trace w ++ [Log INFO "Starting job scraping..."])))
    as (s' & total & t & Ht & Hpt).
  exists s', total, t; split; [|exact Hpt].
  unfold run_scrape, scrape_all.
  change (Log INFO "Starting job scraping..." :: t ++
          [Log INFO ("Job scraping completed! Total jobs processed: " ++ PyStr.of_nat total)])
    with ([Log INFO "Starting job scraping..."] ++ (t ++
          [Log INFO ("Job scraping completed! Total jobs processed: " ++ PyStr.of_nat total)])).
  eapply runs_bind_ok; [apply runs_emit|].
  eapply runs_bind_ok; [exact Ht|].
  unfold runs, bind, log, emit, ret; simpl. reflexivity.
Qed.

End Orchestrator.

(** ** What the traces show *)

Section Projections.

Lemma fetched_count_app t1 t2 :
  fetched_count (t1 ++ t2) = fetched_count t1 + fetched_count t2.
Proof. unfold fetched_count; now rewrite map_app, list_sum_app. Qed.

Lemma writer_events_quiet t :
  forallb is_writer_event t = true ->
  scraped_locations t = [] /\ partition_marks t = [] /\ fetched_count t = 0.
Proof.
  induction t as [|e t IH]; simpl; [auto|].
  intros H; apply andb_true_iff in H as [He Ht].
  destruct (IH Ht) as (H1 & H2 & H3).
  unfold fetched_count in *; simpl; rewrite H1, H2, H3.
  destruct e as [| | | | [|[|[|n]]] | |]; simpl in *; auto; discriminate.
Qed.

Lemma now_events_writer t :
  forallb is_now t = true -> forallb is_writer_event t = true.
Proof.
  induction t as [|e t IH]; simpl; [auto|].
  intros H; apply andb_true_iff in H as [He Ht].
  rewrite (IH Ht); destruct e; simpl in *; auto; discriminate.
Qed.

Lemma now_events_no_upsert t :
  forallb is_now t = true -> upsert_batches t = [] /\ calls_and_pauses t = [].
Proof.
  induction t as [|e t IH]; simpl; [auto|].
  intros H; apply andb_true_iff in H as [He Ht].
  destruct (IH Ht) as [H1 H2]; unfold calls_and_pauses in *; simpl; rewrite H1, H2.
  destruct e; simpl in *; auto; discriminate.
Qed.

Lemma batch_trace_writer answers bs t :
  batch_trace answers bs t -> forallb is_writer_event t = true.
Proof.
  induction 1 as [|b f rest t _ _ IH]; simpl; [reflexivity|].
  rewrite forallb_app, IH; destruct f; reflexivity.
Qed.

Lemma batch_trace_no_now answers bs t :
  batch_trace answers bs t -> forallb (fun e => negb (is_now e)) t = true.
Proof.
  induction 1 as [|b f rest t _ _ IH]; simpl; [reflexivity|].
  rewrite forallb_app, IH; destruct f; reflexivity.
Qed.

Lemma batch_trace_upserts answers bs t :
  batch_trace answers bs t -> upsert_batches t = bs.
Proof.
  induction 1 as [|b f rest t _ _ IH]; simpl; [reflexivity|].
  unfold upsert_batches in *; rewrite flat_map_app, IH.
  destruct f; reflexivity.
Qed.

(** In the batch loop the calls go to [job_listings], keyed on [id], and a
    pause of 2 follows each call that succeeded and no other. *)
Lemma batch_trace_calls answers bs t :
  batch_trace answers bs t ->
  exists failures,
    List.length failures = List.length bs /\
    Forall answers failures /\
    calls_and_pauses t =
      flat_map (fun bf => Upsert "job_listings" (fst bf) "id" (snd bf) :: pause_after (snd bf))
        (combine bs failures).
Proof.
  induction 1 as [|b f rest t Hf _ (fs & Hlen & Hfs & IH)]; simpl.
  - now exists [].
  - exists (f :: fs); split; [simpl; now rewrite Hlen|split; [now constructor|]].
    unfold calls_and_pauses in *; simpl.
    rewrite filter_app, IH; destruct f; reflexivity.
Qed.

Lemma write_trace_writer answers legacy jobs written t :
  write_trace answers legacy jobs written t -> forallb is_writer_event t = true.
Proof.
  destruct 1; [eapply batch_trace_writer; eassumption | reflexivity].
Qed.

Lemma partition_write_writer answers legacy df ti :
  partition_write answers legacy df ti -> forallb is_writer_event ti = true.
Proof.
  unfold partition_write; destruct (df_empty df).
  - intros ->; reflexivity.
  - intros (tc & tw & written & -> & Hnow & Hw).
    rewrite forallb_app, (now_events_writer _ Hnow).
    simpl; eapply write_trace_writer; eassumption.
Qed.

Lemma fetch_log_is_log location answer :
  exists lvl msg, fetch_log location answer = Log lvl msg.
Proof.
  destruct answer as [[|d|ty]|e]; simpl; try destruct (df_empty d); eauto.
Qed.

Lemma fetch_trace_shows self location answer :
  scraped_locations (fetch_trace self location answer) = [location] /\
  partition_marks (fetch_trace self location answer) = [Some location] /\
  fetched_count (fetch_trace self location answer) = df_len (fetched_frame answer).
Proof.
  unfold fetch_trace, fetched_count.
  destruct (fetch_log_is_log location answer) as (lvl & msg & ->); simpl.
  repeat split; lia.
Qed.

Lemma partition_trace_shows answers legacy self locs total total' t :
  partition_trace answers legacy self locs total total' t ->
  scraped_locations t = locs /\
  partition_marks t = flat_map (fun l => [Some l; None]) locs /\
  total' = total + fetched_count t.
Proof.
  induction 1 as [total|location rest answer ti total total' t Hw _ (IH1 & IH2 & IH3)].
  - simpl; repeat split; unfold fetched_count; simpl; lia.
  - destruct (writer_events_quiet _ (partition_write_writer _ _ _ _ Hw)) as (Q1 & Q2 & Q3).
    destruct (fetch_trace_shows self location answer) as (F1 & F2 & F3).
    unfold scraped_locations, partition_marks in *.
    change (Sleep 10 :: t) with ([Sleep 10] ++ t).
    rewrite !flat_map_app, !fetched_count_app, Q1, Q2, Q3, F1, F2, F3, IH1, IH2, IH3.
    change (fetched_count [Sleep 10]) with 0.
    simpl; repeat split; lia.
Qed.

End Projections.

(** ** Chunks of ten *)

Section Chunks.

Lemma firstn_plus {A} (n m : nat) (l : list A) :
  firstn (n + m) l = firstn n l ++ firstn m (skipn n l).
Proof.
  revert l; induction n as [|n IH]; intros [|x l]; simpl; auto.
  - now rewrite firstn_nil.
  - now rewrite IH.
Qed.

Lemma batches_eq (l : list dict) :
  batches l =
  map (fun j => firstn 10 (skipn (j * 10) l)) (seq 0 ((List.length l + 9) / 10)).
Proof.
  unfold batches, py_range, slice; rewrite map_map.
  replace (List.length l + 10 - 1) with (List.length l + 9) by lia.
  apply map_ext; intros j.
  now replace (j * 10 + 10 - j * 10) with 10 by lia.
Qed.

Lemma concat_chunks (l : list dict) (k : nat) :
  List.concat (map (fun j => firstn 10 (skipn (j * 10) l)) (seq 0 k)) = firstn (k * 10) l.
Proof.
  induction k as [|k IH]; [reflexivity|].
  rewrite seq_S, map_app, concat_app, IH.
  cbn [map List.concat]; rewrite app_nil_r, Nat.add_0_l, <- firstn_plus.
  f_equal; lia.
Qed.

Lemma chunk_count_covers (n : nat) : n <= (n + 9) / 10 * 10.
Proof.
  pose proof (Nat.div_mod_eq (n + 9) 10).
  pose proof (Nat.mod_upper_bound (n + 9) 10); lia.
Qed.

Lemma chunk_count_tight (n j : nat) : j < (n + 9) / 10 -> 10 * j < n.
Proof.
  intros Hj.
  pose proof (Nat.div_mod_eq (n + 9) 10).
  pose proof (Nat.mod_upper_bound (n + 9) 10); nia.
Qed.

(** The chunks, put end to end, are the input. *)
Lemma batches_concat (l : list dict) : List.concat (batches l) = l.
Proof.
  rewrite batches_eq, concat_chunks.
  apply firstn_all2, chunk_count_covers.
Qed.

Lemma batches_length (l : list dict) :
  List.length (batches l) = (List.length l + 9) / 10.
Proof. now rewrite batches_eq, length_map, length_seq. Qed.

(** Chunk [j] holds the ten records from [10 * j] on, or those that are left. *)
Lemma batches_nth (l : list dict) (j : nat) (b : list dict) :
  nth_error (batches l) j = Some b ->
  b = firstn 10 (skipn (10 * j) l) /\
  List.length b = Nat.min 10 (List.length l - 10 * j) /\
  10 * j < List.length l.
Proof.
  rewrite batches_eq, nth_error_map, nth_error_seq.
  destruct (j <? (List.length l + 9) / 10)%nat eqn:Hj; [|discriminate].
  apply Nat.ltb_lt in Hj; cbn [option_map]; rewrite Nat.add_0_l; intros Hb.
  assert (b = firstn 10 (skipn (j * 10) l)) as -> by congruence; clear Hb.
  rewrite (Nat.mul_comm j 10), length_firstn, length_skipn.
  repeat split; auto using chunk_count_tight.
Qed.

Lemma batches_23 (l : list dict) :
  List.length l = 23 ->
  batches l = [firstn 10 l; firstn 10 (skipn 10 l); skipn 20 l] /\
  map (@List.length dict) (batches l) = [10; 10; 3].
Proof.
  intros Hl; rewrite batches_eq, Hl.
  change ((23 + 9) / 10) with 3; change (seq 0 3) with [0; 1; 2]; cbn [map].
  change (0 * 10) with 0; change (1 * 10) with 10; change (2 * 10) with 20.
  change (skipn 0 l) with l.
  assert (H3 : firstn 10 (skipn 20 l) = skipn 20 l)
    by (apply firstn_all2; rewrite length_skipn; lia).
  rewrite H3; split; [reflexivity|].
  cbn [map]; rewrite !length_firstn, !length_skipn, Hl; reflexivity.
Qed.

End Chunks.

(** ** The claims about the fetcher *)

Section FetcherClaims.

Context {S : Type}.
Variable env : Env S.
Implicit Types w : world S.

(** C6.  The partition fetcher never propagates an exception: for every
    location and every behaviour of the provider, [scrape_jobs_for_location]
    ends normally with a table, and that table is the empty one when the
    provider raises, answers [None], answers something that is no table, or
    answers a table without records; otherwise it is the provider's table. *)
Theorem fetcher_never_propagates (self : JobScraper) (location : string) w :
  exists df t,
    runs (scrape_jobs_for_location env self location) w (Ok (OFrame df)) (store w) t /\
    match provider_answer env self location w with
    | Raise _ | Ok ONone | Ok (OOther _) => df = empty_frame
    | Ok (OFrame d) => df = if df_empty d then empty_frame else d
    end /\
    to_dict_records empty_frame = [] /\ df_len empty_frame = 0.
Proof.
  exists (fetched_frame (provider_answer env self location w)),
         (fetch_trace self location (provider_answer env self location w)).
  split; [apply scrape_jobs_for_location_runs|].
  split; [|split; reflexivity].
  destruct (provider_answer env self location w) as [[|d|ty]|e]; reflexivity.
Qed.

(** C9.  The fetch never hands back [None]: whatever the provider does, the
    caller can read [.empty] on the result without an exception, and reads
    [True] when the provider raised, answered [None] or found nothing. *)
Theorem fetcher_result_is_never_none (self : JobScraper) (location : string) w :
  let returned := fst (scrape_jobs_for_location env self location w) in
  returned <> Ok ONone /\
  (exists b, bind_result returned attr_empty = Ok b) /\
  match provider_answer env self location w with
  | Raise _ | Ok ONone | Ok (OOther _) => bind_result returned attr_empty = Ok true
  | Ok (OFrame d) => bind_result returned attr_empty = Ok (df_empty d)
  end.
Proof.
  pose proof (scrape_jobs_for_location_runs env self location w) as H.
  unfold runs in H; cbv zeta; rewrite H; cbn [fst bind_result attr_empty].
  split; [discriminate|split; [eauto|]].
  destruct (provider_answer env self location w) as [[|d|ty]|e]; try reflexivity.
  cbn [fetched_frame]; destruct (df_empty d) eqn:Hd; [reflexivity | now rewrite Hd].
Qed.

End FetcherClaims.

(** ** The claims about the orchestrator *)

Section OrchestratorClaims.

Context {S : Type}.
Variable env : Env S.
Implicit Types w : world S.

Lemma JobScraper_init_cases w :
  match JobScraper_init env w with
  | (Ok self, _) => setup_succeeds env w = true /\ self = configured_scraper
  | (Raise _, _) => setup_succeeds env w = false
  end.
Proof.
  unfold JobScraper_init, setup_succeeds, falsy.
  destruct (getenv env "SUPABASE_URL") as [url|]; [|reflexivity].
  destruct (getenv env "SUPABASE_ANON_KEY") as [key|];
    [|destruct (PyStr.is_empty url); reflexivity].
  destruct (PyStr.is_empty url); [reflexivity|].
  destruct (PyStr.is_empty key); [reflexivity|].
  unfold bind, try_except, call_create_client, call_select_probe, log, emit, raise, ret.
  cbn [orb negb andb store trace].
  destruct (create_client env (trace w) url key); cbn; [reflexivity|].
  destruct (select_probe env (store w) _); cbn; auto.
Qed.

Lemma trigger_scrape_runs w :
  exists resp w',
    trigger_scrape env w = (Ok resp, w') /\
    match fst (JobScraper_init env w) with
    | Ok _ => http_status resp = 200 /\ status resp = "success"%string
    | Raise e =>
        http_status resp = 500 /\ status resp = "error"%string /\
        message resp = ("Error: " ++ exn_str e)%string
    end.
Proof.
  unfold trigger_scrape, try_except; unfold bind at 1.
  destruct (JobScraper_init env w) as [[self|e] w1]; cbn [fst].
  - destruct (run_scrape_runs env self w1) as (s' & total & t & Hr & _).
    unfold bind at 1; rewrite Hr.
    unfold bind, datetime_now_isoformat, ret; cbn.
    eexists _, _; split; [reflexivity|]; auto.
  - unfold bind, log, emit, datetime_now_isoformat, ret; cbn.
    eexists _, _; split; [reflexivity|]; auto.
Qed.

(** C8.  The orchestrator isolates partition failures and always completes.
    (1) The location loop ends normally for any loop body.  (2) For any loop
    body, one turn of the loop runs the body at the location; if the body
    returns, the loop goes on with the remaining locations from the total and
    the world the body left; if the body raises, whatever it did before, the
    exception is logged and the loop goes on with the remaining locations all
    the same, the total being the one before the turn.  (3) Hence, for a body
    that at each location adds some events and then either returns a new total
    or raises, every location is visited, in order, whichever locations raise:
    the trace holds the events of each location, followed by the error log at
    the raising ones, and the total is the sum over the others; in particular
    when the body raises at every location.  (4) [run_scrape] ends normally
    with [True] for every behaviour of provider and store, having called the
    provider for every configured location in order.  (5) The handler of the
    endpoint answers an error exactly when [__init__] fails, with that
    exception. *)
Theorem orchestrator_isolates_partitions :
  (forall (body : string -> nat -> M S nat) locs total w,
      exists total' w', for_locations body locs total w = (Ok total', w')) /\
  (forall (body : string -> nat -> M S nat) location rest total w,
      for_locations body (location :: rest) total w =
      match body location total w with
      | (Ok total', w') => for_locations body rest total' w'
      | (Raise e, w') =>
          for_locations body rest total
            (mkWorld (store w')
               (trace w' ++
                [Log ERROR ("Error processing " ++ location ++ ": " ++ exn_str e)]))
      end) /\
  (forall (pre : string -> list event) (fails : string -> option exn) (gain : string -> nat)
          locs total w,
      runs (for_locations
              (fun location total_jobs w' =>
                 (match fails location with
                  | Some e => Raise e
                  | None => Ok (total_jobs + gain location)
                  end,
                  mkWorld (store w') (trace w' ++ pre location)))
              locs total) w
        (Ok (total + list_sum (map gain (filter (fun l => is_none (fails l)) locs))))
        (store w)
        (flat_map (fun location =>
                     pre location ++
                     match fails location with
                     | Some e =>
                         [Log ERROR ("Error processing " ++ location ++ ": " ++ exn_str e)]
                     | None => []
                     end) locs)) /\
  (forall e locs total w,
      runs (for_locations (fun _ _ => raise e) locs total) w (Ok total) (store w)
        (map (fun location =>
                Log ERROR ("Error processing " ++ location ++ ": " ++ exn_str e)) locs)) /\
  (forall self w,
      exists s' t,
        runs (run_scrape env self) w (Ok true) s' t /\
        scraped_locations t = locations self) /\
  (forall w,
      exists resp w',
        trigger_scrape env w = (Ok resp, w') /\
        is_Ok (fst (JobScraper_init env w)) = setup_succeeds env w /\
        http_status resp = (if setup_succeeds env w then 200 else 500) /\
        match fst (JobScraper_init env w) with
        | Ok _ => status resp = "success"%string
        | Raise e => status resp = "error"%string /\
                     message resp = ("Error: " ++ exn_str e)%string
        end).
Proof.
  split; [|split; [|split; [|split; [|split]]]].
  - intros; apply for_locations_total.
  - intros body location rest total w; apply for_locations_step.
  - intros pre fails gain locs; induction locs as [|location rest IH]; intros total w.
    + cbn [filter map list_sum flat_map for_locations]; rewrite Nat.add_0_r; apply runs_ret.
    + unfold runs in *; rewrite for_locations_step.
      cbn [filter map flat_map]; destruct (fails location) as [e|]; cbn [is_none].
      * rewrite IH; cbn [store trace]; now rewrite <- !app_assoc.
      * rewrite IH; cbn [store trace map].
        change (list_sum (?a :: ?l)) with (a + list_sum l).
        rewrite app_nil_r, <- !app_assoc; f_equal; f_equal; lia.
  - intros e locs total; induction locs as [|location rest IH]; intros w.
    + apply runs_ret.
    + cbn [for_locations map].
      change (?x :: ?l) with ([x] ++ l).
      apply runs_bind_ok with (a := total) (s1 := store w);
        [|exact (IH (mkWorld (store w) _))].
      apply runs_try_raise with (e := e) (s1 := store w) (t1 := [])
                                (t2 := [Log ERROR ("Error processing " ++ location ++ ": "
                                                   ++ exn_str e)]);
        [apply runs_raise|].
      unfold runs, bind, log, emit, ret; cbn; now rewrite app_nil_r.
  - intros self w.
    destruct (run_scrape_runs env self w) as (s' & total & t & Hr & Hpt).
    eexists _, _; split; [exact Hr|].
    destruct (partition_trace_shows _ _ _ _ _ _ _ Hpt) as (H1 & _).
    unfold scraped_locations in *; cbn [flat_map]; rewrite flat_map_app, H1.
    cbn; now rewrite app_nil_r.
  - intros w.
    destruct (trigger_scrape_runs w) as (resp & w' & Ht & Hm).
    pose proof (JobScraper_init_cases w) as Hi.
    exists resp, w'; split; [exact Ht|].
    destruct (JobScraper_init env w) as [[self|e] w1]; cbn [fst is_Ok] in *.
    + destruct Hi as [-> _]; destruct Hm; auto.
    + rewrite Hi; destruct Hm as (? & ? & ?); auto.
Qed.

End OrchestratorClaims.

(** ** The claims about totals and pauses *)

Section TotalsAndPauses.

Context {S : Type}.
Variable env : Env S.
Implicit Types w : world S.

(** C4, as amended.  Every per-partition and per-batch error is absorbed
    ([run_scrape] ends normally with [True]), and the total it reports is
    the number of records the fetches handed back: the records of a location
    whose fetch failed are left out, the records of a fetched location are
    counted whether or not their batches were written. *)
Theorem total_counts_fetched_records (self : JobScraper) w :
  exists s' total t,
    runs (scrape_all env self) (mkWorld (store w)
                                  (trace w ++ [Log INFO "Starting job scraping..."]))
      (Ok total) s' t /\
    runs (run_scrape env self) w (Ok true) s'
      (Log INFO "Starting job scraping..." :: t ++
       [Log INFO ("Job scraping completed! Total jobs processed: " ++ PyStr.of_nat total)]) /\
    total = fetched_count t.
Proof.
  destruct (scrape_loop_runs env self (locations self) 0
              (mkWorld (store w) (trace w ++ [Log INFO "Starting job scraping..."])))
    as (s' & total & t & Ht & Hpt).
  exists s', total, t; split; [exact Ht|split].
  - unfold run_scrape.
    change (Log INFO "Starting job scraping..." :: t ++
            [Log INFO ("Job scraping completed! Total jobs processed: " ++ PyStr.of_nat total)])
      with ([Log INFO "Starting job scraping..."] ++ (t ++
            [Log INFO ("Job scraping completed! Total jobs processed: " ++ PyStr.of_nat total)])).
    eapply runs_bind_ok; [apply runs_emit|].
    eapply runs_bind_ok; [exact Ht|].
    reflexivity.
  - now destruct (partition_trace_shows _ _ _ _ _ _ _ Hpt) as (_ & _ & ->).
Qed.

Lemma pauses_balance_app t1 t2 :
  chunk_pauses t1 = accepted_calls t1 ->
  chunk_pauses t2 = accepted_calls t2 ->
  chunk_pauses (t1 ++ t2) = accepted_calls (t1 ++ t2).
Proof.
  unfold chunk_pauses, accepted_calls; intros H1 H2.
  rewrite !filter_app, !length_app; congruence.
Qed.

Lemma now_events_balance t :
  forallb is_now t = true -> chunk_pauses t = accepted_calls t.
Proof.
  induction t as [|e t IH]; [reflexivity|]; simpl.
  intros H; apply andb_true_iff in H as [He Ht].
  change (e :: t) with ([e] ++ t); apply pauses_balance_app; auto.
  destruct e; try discriminate; reflexivity.
Qed.

Lemma batch_trace_balance answers bs t :
  batch_trace answers bs t -> chunk_pauses t = accepted_calls t.
Proof.
  induction 1 as [|b f rest t _ _ IH]; [reflexivity|].
  change (Upsert "job_listings" b "id" f :: after_upsert b f ++ t)
    with ((Upsert "job_listings" b "id" f :: after_upsert b f) ++ t).
  apply pauses_balance_app; [destruct f; reflexivity | exact IH].
Qed.

Lemma partition_write_balance answers legacy df ti :
  partition_write answers legacy df ti -> chunk_pauses ti = accepted_calls ti.
Proof.
  unfold partition_write; destruct (df_empty df).
  - intros ->; reflexivity.
  - intros (tc & tw & written & -> & Hnow & Hw).
    apply pauses_balance_app; [now apply now_events_balance|].
    destruct Hw; [eapply batch_trace_balance; eassumption | reflexivity].
Qed.

Lemma partition_trace_balance answers legacy self locs total total' t :
  partition_trace answers legacy self locs total total' t -> chunk_pauses t = accepted_calls t.
Proof.
  induction 1 as [total|location rest answer ti total total' t Hw _ IH]; [reflexivity|].
  apply pauses_balance_app.
  - unfold fetch_trace.
    destruct (fetch_log_is_log location answer) as (lvl & msg & ->); reflexivity.
  - apply pauses_balance_app; [eapply partition_write_balance; eassumption|].
    change (Sleep 10 :: t) with ([Sleep 10] ++ t); now apply pauses_balance_app.
Qed.

(** C5, as amended.  In every run a pause of 10 follows the fetch of every
    location, whatever the fetch and the write did; a pause of 2 follows an
    upsert call exactly when the store accepted it, so that a run has as
    many pauses of 2 as accepted calls. *)
Theorem pauses_follow_partitions_and_accepted_chunks :
  (forall self w,
      exists s' t,
        runs (run_scrape env self) w (Ok true) s' t /\
        partition_marks t = flat_map (fun l => [Some l; None]) (locations self) /\
        chunk_pauses t = accepted_calls t) /\
  (forall batch w,
      exists s' t,
        runs (insert_batch env batch) w (Ok tt) s' t /\
        chunk_pauses t =
          if is_none (snd (upsert_execute env (store w) (trace w) batch)) then 1 else 0).
Proof.
  split.
  - intros self w.
    destruct (run_scrape_runs env self w) as (s' & total & t & Hr & Hpt).
    eexists _, _; split; [exact Hr|].
    destruct (partition_trace_shows _ _ _ _ _ _ _ Hpt) as (_ & H2 & _).
    split.
    + unfold partition_marks in *; cbn [flat_map]; rewrite flat_map_app, H2.
      cbn; now rewrite app_nil_r.
    + change (Log INFO "Starting job scraping..." :: ?l)
        with ([Log INFO "Starting job scraping..."] ++ l).
      repeat apply pauses_balance_app; try reflexivity.
      eapply partition_trace_balance; eassumption.
  - intros batch w.
    eexists _, _; split; [apply insert_batch_runs|].
    destruct (snd (upsert_execute env (store w) (trace w) batch)); reflexivity.
Qed.

End TotalsAndPauses.

(** C4, counterexample.  With a provider that finds one job at each of the
    seven configured locations and a store that rejects every upsert, the
    total is 7 although all 7 records were in failed batches. *)
Lemma failed_batches_are_counted :
  ~ total_omits_failed_batches
      (sample_env true false (fun _ => Ok (OFrame (sample_frame 1))))
      configured_scraper start.
Proof.
  intros H.
  pose (res := scrape_all (sample_env true false (fun _ => Ok (OFrame (sample_frame 1))))
                 configured_scraper start).
  specialize (H (store (snd res)) 7 (trace (snd res))).
  assert (Hrun : runs (scrape_all (sample_env true false
                                     (fun _ => Ok (OFrame (sample_frame 1))))
                         configured_scraper) start (Ok 7) (store (snd res)) (trace (snd res)))
    by (vm_compute; reflexivity).
  apply H in Hrun; vm_compute in Hrun; discriminate.
Qed.

(** C5, counterexample.  With the same provider and store, seven upsert
    calls are made and no pause of 2 takes place. *)
Lemma chunk_pause_skipped_on_failure :
  ~ pauses_are_unconditional
      (sample_env true false (fun _ => Ok (OFrame (sample_frame 1))))
      configured_scraper start.
Proof.
  intros H.
  pose (res := run_scrape (sample_env true false (fun _ => Ok (OFrame (sample_frame 1))))
                 configured_scraper start).
  specialize (H (store (snd res)) (trace (snd res))).
  assert (Hrun : runs (run_scrape (sample_env true false
                                     (fun _ => Ok (OFrame (sample_frame 1))))
                         configured_scraper) start (Ok true) (store (snd res))
                   (trace (snd res)))
    by (vm_compute; reflexivity).
  apply H in Hrun; destruct Hrun as [Hrun _]; vm_compute in Hrun; discriminate.
Qed.

(** C7, counterexample.  With a table of 23 records that all clean and a
    store that rejects every upsert, the write makes its three calls, of sizes
    10, 10 and 3, one after the other: no pause comes between them. *)
Lemma writer_pause_skipped_on_rejection :
  df_len (sample_frame 23) = 23 /\
  forallb (fun job => is_Ok (clean_items true job [])) (to_dict_records (sample_frame 23))
  = true /\
  ~ pauses_between_calls (sample_env true false (fun _ => Ok ONone)) (sample_frame 23) start.
Proof.
  split; [vm_compute; reflexivity|split; [vm_compute; reflexivity|]].
  intros H.
  pose (res := insert_jobs_to_supabase (sample_env true false (fun _ => Ok ONone))
                 (OFrame (sample_frame 23)) start).
  specialize (H (store (snd res)) (trace (snd res))).
  assert (Hrun : runs (insert_jobs_to_supabase (sample_env true false (fun _ => Ok ONone))
                         (OFrame (sample_frame 23))) start (Ok tt) (store (snd res))
                   (trace (snd res)))
    by (vm_compute; reflexivity).
  apply H in Hrun; destruct Hrun as [_ [rest Hrest]].
  vm_compute in Hrest; discriminate.
Qed.

(** ** The claims about the batch writer *)

Section WriterClaims.

Context {S : Type}.
Variable env : Env S.
Implicit Types w : world S.

Lemma cleaned_from_all_ok legacy jobs cleaned_jobs :
  Forall2 (cleaned_from legacy) jobs cleaned_jobs ->
  forallb (fun job => is_Ok (clean_items legacy job [])) jobs = true.
Proof.
  induction 1 as [|job c jobs cs (fields & iso & Hf & _) _ IH]; [reflexivity|].
  simpl; now rewrite Hf, IH.
Qed.

Lemma raising_job_not_all_ok legacy jobs job e :
  In job jobs -> clean_items legacy job [] = Raise e ->
  forallb (fun job => is_Ok (clean_items legacy job [])) jobs = false.
Proof.
  intros Hin He; destruct (forallb _ jobs) eqn:Hall; [|reflexivity].
  rewrite forallb_forall in Hall; specialize (Hall _ Hin); now rewrite He in Hall.
Qed.

Lemma empty_table_cleans df :
  df_empty df = true ->
  forallb (fun job => is_Ok (clean_items (numpy_legacy env) job [])) (to_dict_records df) = true.
Proof.
  unfold df_empty, to_dict_records; destruct df as [cols rows]; cbn [columns data].
  destruct cols as [|c cols]; [|destruct rows; [reflexivity|discriminate]].
  intros _; induction rows as [|r rows IH]; [reflexivity|]; simpl; exact IH.
Qed.

(** C7, as amended.  The batch writer cuts its input into chunks of ten
    and issues one upsert call per chunk, on [job_listings] and keyed on
    [id].  For an empty
    table it returns at once, having only logged a note.  For a table whose
    records all clean, the calls carry, in order, the chunks of the cleaned
    records: chunk [j] is the ten records from [10 * j] on, or those that are
    left, and the chunks put end to end are the cleaned records; a pause of 2
    follows each call the store accepts.  For 23 records there are exactly
    three calls, of sizes 10, 10 and 3, and with a store that accepts its
    calls the calls and pauses are call, pause, call, pause, call, pause. *)
Theorem writer_chunks_of_ten :
  (forall df w,
      df_empty df = true ->
      runs (insert_jobs_to_supabase env (OFrame df)) w (Ok tt) (store w)
        [Log INFO "No jobs to insert"]) /\
  (forall df w,
      df_empty df = false ->
      forallb (fun job => is_Ok (clean_items (numpy_legacy env) job []))
        (to_dict_records df) = true ->
      exists cleaned_jobs s' t failures,
        runs (insert_jobs_to_supabase env (OFrame df)) w (Ok tt) s' t /\
        Forall2 (cleaned_from (numpy_legacy env)) (to_dict_records df) cleaned_jobs /\
        upsert_batches t = batches cleaned_jobs /\
        List.concat (batches cleaned_jobs) = cleaned_jobs /\
        (forall j b, nth_error (batches cleaned_jobs) j = Some b ->
                     b = firstn 10 (skipn (10 * j) cleaned_jobs) /\
                     List.length b = Nat.min 10 (List.length cleaned_jobs - 10 * j) /\
                     10 * j < List.length cleaned_jobs) /\
        List.length failures = List.length (batches cleaned_jobs) /\
        Forall (store_answer env) failures /\
        calls_and_pauses t =
          flat_map (fun bf => Upsert "job_listings" (fst bf) "id" (snd bf)
                                :: pause_after (snd bf))
            (combine (batches cleaned_jobs) failures) /\
        (df_len df = 23 ->
         map (@List.length dict) (upsert_batches t) = [10; 10; 3] /\
         ((forall s t batch, snd (upsert_execute env s t batch) = None) ->
          calls_and_pauses t =
            [Upsert "job_listings" (firstn 10 cleaned_jobs) "id" None; Sleep 2;
             Upsert "job_listings" (firstn 10 (skipn 10 cleaned_jobs)) "id" None; Sleep 2;
             Upsert "job_listings" (skipn 20 cleaned_jobs) "id" None; Sleep 2]))).
Proof.
  split; [intros df w; apply insert_empty_runs|].
  intros df w He Hclean.
  destruct (insert_jobs_runs env df w He) as (s' & tc & tw & written & Hr & Hnow & Hw & _).
  destruct Hw as [cleaned tw HF Hbt | job e Hin Hj];
    [|now rewrite (raising_job_not_all_ok _ _ _ _ Hin Hj) in Hclean].
  destruct (batch_trace_calls _ _ _ Hbt) as (failures & Hlen & Hans & Hcalls).
  destruct (now_events_no_upsert _ Hnow) as [Hu Hc].
  assert (Hups : upsert_batches (tc ++ tw) = batches cleaned).
  { unfold upsert_batches in *; rewrite flat_map_app, Hu.
    exact (batch_trace_upserts _ _ _ Hbt). }
  assert (Hcp : calls_and_pauses (tc ++ tw) =
                flat_map (fun bf => Upsert "job_listings" (fst bf) "id" (snd bf)
                                      :: pause_after (snd bf))
                  (combine (batches cleaned) failures)).
  { unfold calls_and_pauses in *; rewrite filter_app, Hc; exact Hcalls. }
  exists cleaned, s', (tc ++ tw), failures.
  repeat (split; [first [exact Hr | exact HF | exact Hups | apply batches_concat
                        | apply batches_nth | exact Hlen | exact Hans | exact Hcp]|]).
  intros H23.
  assert (Hl : List.length cleaned = 23).
  { rewrite <- (Forall2_length HF); unfold to_dict_records; now rewrite length_map. }
  destruct (batches_23 _ Hl) as [Hb Hs].
  split; [now rewrite Hups|].
  intros Haccept.
  assert (Hnone : Forall (fun f => f = None) failures).
  { eapply Forall_impl; [|exact Hans].
    intros f (s0 & t0 & b0 & ->); apply Haccept. }
  rewrite Hb in Hlen; rewrite Hcp, Hb.
  destruct failures as [|f1 [|f2 [|f3 [|f4 fs]]]]; try discriminate.
  inversion Hnone as [|? ? -> Hn2]; subst.
  inversion Hn2 as [|? ? -> Hn3]; subst.
  inversion Hn3 as [|? ? -> _]; subst.
  reflexivity.
Qed.

(** C10.  The writer cleans every record before it issues any upsert: in
    the events a write adds, every reading of the clock comes before every
    upsert call.  If the cleaning of some record raises, the write ends
    normally, issues no upsert call at all, and leaves the store as it was. *)
Theorem cleaning_failure_writes_nothing :
  (forall df w,
      exists s' tc tw,
        runs (insert_jobs_to_supabase env (OFrame df)) w (Ok tt) s' (tc ++ tw) /\
        upsert_batches tc = [] /\
        forallb (fun e => negb (is_now e)) tw = true) /\
  (forall df w,
      forallb (fun job => is_Ok (clean_items (numpy_legacy env) job []))
        (to_dict_records df) = false ->
      exists t,
        runs (insert_jobs_to_supabase env (OFrame df)) w (Ok tt) (store w) t /\
        upsert_batches t = [] /\
        exists job e,
          In job (to_dict_records df) /\
          clean_items (numpy_legacy env) job [] = Raise e /\
          last t (Log INFO "") =
            Log ERROR ("Error preparing jobs for insertion: " ++ exn_str e)).
Proof.
  split.
  - intros df w; destruct (df_empty df) eqn:He.
    + exists (store w), [], [Log INFO "No jobs to insert"].
      split; [now apply insert_empty_runs | auto].
    + destruct (insert_jobs_runs env df w He)
        as (s' & tc & tw & written & Hr & Hnow & Hw & _).
      exists s', tc, tw; split; [exact Hr|split].
      * now destruct (now_events_no_upsert _ Hnow).
      * destruct Hw; [eapply batch_trace_no_now; eassumption | reflexivity].
  - intros df w Hbad.
    destruct (df_empty df) eqn:He;
      [now rewrite (empty_table_cleans _ He) in Hbad|].
    destruct (insert_jobs_runs env df w He)
      as (s' & tc & tw & written & Hr & Hnow & Hw & Hs).
    destruct Hw as [cleaned tw HF Hbt | job e Hin Hj];
      [now rewrite (cleaned_from_all_ok _ _ _ HF) in Hbad|].
    rewrite (Hs eq_refl) in Hr.
    eexists; split; [exact Hr|split].
    + destruct (now_events_no_upsert _ Hnow) as [Hu _].
      unfold upsert_batches in *; rewrite flat_map_app, Hu; reflexivity.
    + exists job, e; repeat split; auto.
      now rewrite last_last.
Qed.

End WriterClaims.

(** ** The cleaning of fields *)

Section Cleaning.

(** The examples of the specification. *)
Example count_of_decimal_string legacy :
  clean_value legacy "company_reviews_count" (Scalar (PStr "42.0")) = Ok (Scalar (PInt 42)).
Proof. destruct legacy; vm_compute; reflexivity. Qed.

Example count_of_garbage legacy :
  clean_value legacy "company_reviews_count" (Scalar (PStr "not-a-number")) = Ok (Scalar PNone).
Proof. destruct legacy; vm_compute; reflexivity. Qed.

Example count_of_float legacy :
  clean_value legacy "min_amount"
    (Scalar (PFloat (S754_finite false 5497558138880000 (-40)))) = Ok (Scalar (PInt 5000)).
Proof. destruct legacy; vm_compute; reflexivity. Qed.

Example skills_of_string legacy :
  clean_value legacy "skills" (Scalar (PStr "python, sql ,  ml"))
  = Ok (PList [PStr "python"; PStr "sql"; PStr "ml"]).
Proof. destruct legacy; vm_compute; reflexivity. Qed.

Example skills_of_none legacy :
  clean_value legacy "skills" (Scalar PNone) = Ok (Scalar PNone).
Proof. destruct legacy; reflexivity. Qed.

Lemma key_in_count_fields key :
  key_in key count_fields = true ->
  key = "company_reviews_count"%string \/ key = "vacancy_count"%string \/
  key = "min_amount"%string \/ key = "max_amount"%string.
Proof.
  unfold key_in, count_fields; cbn [existsb].
  rewrite !orb_true_iff, !String.eqb_eq; intuition discriminate.
Qed.

(** On a scalar, a count-like field cleans to [None] or to an [int], and
    the one exception that leaves the cleaning is the [OverflowError] of
    [int] on an infinite float. *)
Lemma count_field_outcomes legacy key (x : scalar) :
  key_in key count_fields = true ->
  match clean_value legacy key (Scalar x) with
  | Ok v => v = Scalar PNone \/ exists z, v = Scalar (PInt z)
  | Raise e => e = OverflowError "cannot convert float infinity to integer"
  end.
Proof.
  intros Hk; unfold clean_value; cbn [Pandas.isna Pandas.truth bind_result].
  destruct (Pandas.checknull x) eqn:Hc; cbv iota; [now left|].
  assert (Hn : is_None (Scalar x) = false) by (destruct x; auto; discriminate).
  rewrite Hk, Hn; cbn [andb negb]; cbv iota.
  unfold to_count, str_of.
  destruct (str_raises (Scalar x));
    cbn [bind_result except_ValueError_TypeError str_limit_error is_ValueError_or_TypeError];
    cbv iota; [now left|].
  destruct (String.eqb (py_str (Scalar x)) "nan"); cbn [negb]; cbv iota; [now left|].
  unfold PyFloat.of_string, except_ValueError_TypeError.
  destruct (PyFloat.parse (py_str (Scalar x))) as [f|];
    cbn [bind_result is_ValueError_or_TypeError]; cbv iota; [|now left].
  destruct f as [s|s| |s m e];
    cbn [PyFloat.to_int bind_result is_ValueError_or_TypeError]; cbv iota; eauto.
Qed.

Lemma dict_get_set_same d k v : dict_get (dict_set d k v) k = Some v.
Proof.
  induction d as [|[k' v'] d IH]; simpl.
  - now rewrite String.eqb_refl.
  - destruct (String.eqb k' k) eqn:E; simpl; rewrite E; auto.
Qed.

Lemma dict_get_set_other d k k' v :
  k' <> k -> dict_get (dict_set d k v) k' = dict_get d k'.
Proof.
  intros Hne; induction d as [|[k0 v0] d IH]; simpl.
  - destruct (String.eqb k k') eqn:E; [apply String.eqb_eq in E; congruence | reflexivity].
  - destruct (String.eqb k0 k) eqn:E; simpl.
    + apply String.eqb_eq in E; subst k0.
      destruct (String.eqb k k') eqn:E'; [apply String.eqb_eq in E'; congruence | reflexivity].
    + now rewrite IH.
Qed.

(** When the cleaning of a job with distinct keys does not raise, each of
    its keys holds the cleaned value of its field, and the other keys are
    untouched. *)
Lemma clean_items_get legacy items : forall cleaned_job fields k,
  NoDup (map fst items) ->
  clean_items legacy items cleaned_job = Ok fields ->
  match dict_get items k with
  | Some v => clean_value legacy k v = Ok (match dict_get fields k with
                                           | Some c => c
                                           | None => Scalar PNone
                                           end) /\
              dict_get fields k <> None
  | None => dict_get fields k = dict_get cleaned_job k
  end.
Proof.
  induction items as [|[key value] rest IH]; intros acc fields k Hnd Hc.
  - simpl in *; congruence.
  - inversion Hnd as [|? ? Hnotin Hnd']; subst.
    cbn [clean_items] in Hc; unfold bind_result in Hc.
    destruct (clean_value legacy key value) as [c|e] eqn:Hv; [|discriminate].
    specialize (IH _ _ k Hnd' Hc).
    cbn [dict_get]; destruct (String.eqb key k) eqn:E.
    + apply String.eqb_eq in E; subst k.
      assert (Hnone : dict_get rest key = None).
      { clear -Hnotin; induction rest as [|[k0 v0] rest IHr]; [reflexivity|].
        simpl in *; destruct (String.eqb k0 key) eqn:E0.
        - apply String.eqb_eq in E0; tauto.
        - apply IHr; tauto. }
      rewrite Hnone in IH; rewrite IH, dict_get_set_same; split; [exact Hv|discriminate].
    + destruct (dict_get rest k); [exact IH|].
      rewrite IH; apply dict_get_set_other.
      intros ->; now rewrite String.eqb_refl in E.
Qed.

(** Under a key of no special class the cleaning is [str]. *)
Lemma clean_value_text legacy key value :
  key_in key count_fields = false ->
  key_in key array_fields = false ->
  String.eqb key "company_rating" = false ->
  clean_value legacy key value =
  bind_result (Pandas.truth legacy (Pandas.isna value)) (fun na =>
    if na then Ok (Scalar PNone) else to_text value).
Proof.
  intros Hc Ha Hr; unfold clean_value; now rewrite Hc, Ha, Hr.
Qed.

(** The part of the totality of the normalizer that holds: when the
    cleaning of a job does not raise, the cleaned job carries a timestamp,
    and an [id] that is present in the job is a string in the cleaned job. *)
Lemma cleaned_job_has_id_and_timestamp legacy job cleaned_job (x : scalar) :
  NoDup (map fst job) ->
  cleaned_from legacy job cleaned_job ->
  dict_get job "id" = Some (Scalar x) ->
  Pandas.checknull x = false ->
  (exists iso, dict_get cleaned_job "scraped_at" = Some (Scalar (PStr iso))) /\
  dict_get cleaned_job "id" = Some (Scalar (PStr (scalar_str x))).
Proof.
  intros Hnd (fields & iso & Hc & ->) Hid Hx; split.
  - exists iso; apply dict_get_set_same.
  - rewrite dict_get_set_other by discriminate.
    pose proof (clean_items_get legacy job [] fields "id" Hnd Hc) as H.
    rewrite Hid in H; destruct H as [Hv Hsome].
    rewrite clean_value_text in Hv by reflexivity.
    cbn [Pandas.isna Pandas.truth bind_result] in Hv.
    rewrite Hx in Hv.
    assert (Hn : is_None (Scalar x) = false) by (destruct x; auto; discriminate).
    unfold to_text, str_of in Hv; rewrite Hn in Hv; cbn [negb] in Hv.
    destruct (str_raises (Scalar x)); cbn [bind_result py_str] in Hv; [discriminate|].
    destruct (dict_get fields "id"); congruence.
Qed.

(** C1, at an input that breaks it.  A job whose [min_amount] is an
    infinite float does not degrade to a null field: [int] raises
    [OverflowError], which the [except (ValueError, TypeError)] of line 98
    lets through.  The cleaning of the job is abandoned, and with it the
    write of the whole table, the well-formed [job-1] included. *)
Theorem normalizer_raises_on_infinite_amount (legacy accept : bool) :
  clean_items legacy
    [("id", Scalar (PStr "job-2")); ("title", Scalar (PStr "Program Manager"));
     ("min_amount", Scalar (PFloat (S754_infinity false)))] []
  = Raise (OverflowError "cannot convert float infinity to integer") /\
  insert_jobs_to_supabase (sample_env legacy accept (fun _ => Ok ONone))
    (OFrame infinite_amount_frame) start
  = (Ok tt,
     mkWorld 0
       [Now "2026-01-01T00:00:00";
        Log ERROR
          "Error preparing jobs for insertion: cannot convert float infinity to integer"]).
Proof. destruct legacy, accept; vm_compute; split; reflexivity. Qed.

(** C2, at inputs that break it.  On every count-like field the strings
    [inf] and [1e999] and the infinite float parse to an infinite float, on
    which the truncation raises [OverflowError]: the exception is not turned
    into null but leaves the cleaning. *)
Theorem count_field_overflow_escapes (legacy : bool) :
  Forall (fun key =>
            clean_value legacy key (Scalar (PStr "inf"))
            = Raise (OverflowError "cannot convert float infinity to integer") /\
            clean_value legacy key (Scalar (PStr "1e999"))
            = Raise (OverflowError "cannot convert float infinity to integer") /\
            clean_value legacy key (Scalar (PFloat (S754_infinity false)))
            = Raise (OverflowError "cannot convert float infinity to integer"))
    count_fields.
Proof. destruct legacy; repeat constructor; vm_compute; reflexivity. Qed.

(** C3, at an input that breaks it.  On both list-like fields a list of two
    strings does not pass through: [pd.isna] answers an array of two
    booleans, whose truth value NumPy refuses, so the [if] of line 92 raises
    before the [isinstance(value, list)] branch is reached, and the write of
    the table is abandoned.  A list of one missing element becomes null. *)
Theorem list_value_does_not_pass_through (legacy accept : bool) :
  Forall (fun key =>
            clean_value legacy key (PList [PStr "python"; PStr "sql"])
            = Raise (ValueError
                "The truth value of an array with more than one element is ambiguous. Use a.any() or a.all()") /\
            clean_value legacy key (PList [PNone]) = Ok (Scalar PNone))
    array_fields /\
  insert_jobs_to_supabase (sample_env legacy accept (fun _ => Ok ONone))
    (OFrame skills_list_frame) start
  = (Ok tt,
     mkWorld 0
       [Log ERROR
          "Error preparing jobs for insertion: The truth value of an array with more than one element is ambiguous. Use a.any() or a.all()"]).
Proof.
  destruct legacy, accept; (split; [repeat constructor|]); vm_compute; reflexivity.
Qed.

End Cleaning.

(** ** The writer on sample tables *)

(** C7 on a table of 23 jobs and a store that accepts: three calls of
    sizes 10, 10 and 3, a pause after each. *)
Lemma writer_chunks_of_ten_witness :
  df_empty (sample_frame 23) = false /\
  forallb (fun job => is_Ok (clean_items true job [])) (to_dict_records (sample_frame 23))
  = true /\
  exists s' t,
    runs (insert_jobs_to_supabase (sample_env true true (fun _ => Ok ONone))
            (OFrame (sample_frame 23))) start (Ok tt) s' t /\
    map (@List.length dict) (upsert_batches t) = [10; 10; 3] /\
    map is_upsert (calls_and_pauses t) = [true; false; true; false; true; false] /\
    chunk_pauses t = 3.
Proof.
  split; [reflexivity|split; [vm_compute; reflexivity|]].
  destruct (proj2 (writer_chunks_of_ten (sample_env true true (fun _ => Ok ONone)))
              (sample_frame 23) start)
    as (cleaned_jobs & s' & t & failures & Hr & _ & _ & _ & _ & _ & _ & _ & H23);
    [reflexivity | vm_compute; reflexivity |].
  destruct (H23 eq_refl) as [Hsizes Hpauses].
  assert (Hcp := Hpauses (fun _ _ _ => eq_refl)).
  exists s', t; split; [exact Hr|split; [exact Hsizes|]].
  unfold chunk_pauses.
  assert (Hf : filter (fun e => match e with Sleep 2 => true | _ => false end) t
               = filter (fun e => match e with Sleep 2 => true | _ => false end)
                   (calls_and_pauses t)).
  { unfold calls_and_pauses; clear; induction t as [|e t IH]; [reflexivity|].
    destruct e as [| | | | [|[|[|n]]] | |]; simpl; now rewrite <- ?IH. }
  rewrite Hf, Hcp; split; reflexivity.
Defined.

(** C10 on the table whose job has a list of two skills. *)
Lemma cleaning_failure_writes_nothing_witness :
  forallb (fun job => is_Ok (clean_items true job [])) (to_dict_records skills_list_frame)
  = false /\
  exists t,
    runs (insert_jobs_to_supabase (sample_env true true (fun _ => Ok ONone))
            (OFrame skills_list_frame)) start (Ok tt) (store start) t /\
    upsert_batches t = [].
Proof.
  split; [vm_compute; reflexivity|].
  destruct (proj2 (cleaning_failure_writes_nothing (sample_env true true (fun _ => Ok ONone)))
              skills_list_frame start)
    as (t & Hr & Hu & _); [vm_compute; reflexivity|].
  exists t; split; [exact Hr | exact Hu].
Defined.

(** * Further properties of the code *)

(** ** Dictionaries and the records of a table *)

Section Records.

Lemma dict_get_none_keys d k : dict_get d k = None <-> ~ In k (dict_keys d).
Proof.
  induction d as [|[k' v'] d IH]; simpl; [tauto|].
  destruct (String.eqb k' k) eqn:E.
  - apply String.eqb_eq in E; subst; split; [discriminate | tauto].
  - apply String.eqb_neq in E; rewrite IH; tauto.
Qed.

Lemma dict_set_keys d k v :
  dict_keys (dict_set d k v) = if dict_has d k then dict_keys d else dict_keys d ++ [k].
Proof.
  unfold dict_has; induction d as [|[k' v'] d IH]; simpl; [reflexivity|].
  destruct (String.eqb k' k) eqn:E; simpl; [reflexivity|].
  rewrite IH; destruct (dict_get d k); reflexivity.
Qed.

Lemma dict_set_keys_unique d k v : NoDup (dict_keys d) -> NoDup (dict_keys (dict_set d k v)).
Proof.
  intros Hnd; rewrite dict_set_keys; unfold dict_has.
  destruct (dict_get d k) eqn:Hg; [exact Hnd|].
  apply dict_get_none_keys in Hg.
  apply NoDup_app; [exact Hnd | repeat constructor; simpl; tauto |].
  intros x Hx [<-|[]]; tauto.
Qed.

Lemma fold_dict_set_keys_unique items : forall d,
  NoDup (dict_keys d) ->
  NoDup (dict_keys (fold_left (fun d kv => dict_set d (fst kv) (snd kv)) items d)).
Proof.
  induction items as [|[k v] items IH]; intros d Hnd; simpl; [exact Hnd|].
  apply IH, dict_set_keys_unique, Hnd.
Qed.

Lemma fold_dict_set_get items k : forall d,
  dict_get (fold_left (fun d kv => dict_set d (fst kv) (snd kv)) items d) k =
  match dict_get (rev items) k with
  | Some v => Some v
  | None => dict_get d k
  end.
Proof.
  induction items as [|[k' v'] items IH]; intros d; simpl; [reflexivity|].
  rewrite IH.
  assert (Happ : forall l1 l2, dict_get (l1 ++ l2) k =
                               match dict_get l1 k with
                               | Some v => Some v
                               | None => dict_get l2 k
                               end).
  { induction l1 as [|[k1 v1] l1 IH1]; intros l2; simpl; [reflexivity|].
    destruct (String.eqb k1 k); auto. }
  rewrite Happ; destruct (dict_get (rev items) k); [reflexivity|].
  simpl; destruct (String.eqb k' k) eqn:E.
  - apply String.eqb_eq in E; subst; apply dict_get_set_same.
  - apply dict_get_set_other; intros ->; now rewrite String.eqb_refl in E.
Qed.

Lemma fold_dict_set_fresh items : forall d,
  NoDup (dict_keys (d ++ items)) ->
  fold_left (fun d kv => dict_set d (fst kv) (snd kv)) items d = d ++ items.
Proof.
  induction items as [|[k v] items IH]; intros d Hnd; simpl; [now rewrite app_nil_r|].
  assert (Hset : dict_set d k v = d ++ [(k, v)]).
  { assert (Hk : ~ In k (dict_keys d)).
    { unfold dict_keys in *; rewrite map_app in Hnd; simpl in Hnd.
      apply NoDup_remove_2 in Hnd; rewrite in_app_iff in Hnd; tauto. }
    clear -Hk; induction d as [|[k0 v0] d IHd]; simpl in *; [reflexivity|].
    destruct (String.eqb k0 k) eqn:E; [apply String.eqb_eq in E; tauto|].
    rewrite IHd; tauto. }
  rewrite Hset, IH; rewrite <- app_assoc; [reflexivity | exact Hnd].
Qed.

Lemma combine_keys_unique (cols : list string) (cells : list pyval) :
  NoDup cols -> NoDup (dict_keys (combine cols cells)).
Proof.
  intros Hnd; revert cells; induction Hnd as [|c cols Hc Hnd IH]; intros cells; simpl.
  - constructor.
  - destruct cells as [|x cells]; simpl; constructor; [|apply IH].
    intros Hin; apply Hc; unfold dict_keys in Hin.
    apply in_map_iff in Hin as ([k v] & <- & Hin); now apply in_combine_l in Hin.
Qed.

(** X17.  [to_dict('records')] hands back one record per row, and the keys
    of every record are distinct, whatever the column labels are; under a
    label that occurs more than once the record holds the cell of the last
    such column. *)
Theorem records_have_distinct_keys (df : DataFrame) :
  List.length (to_dict_records df) = df_len df /\
  Forall (fun job => NoDup (dict_keys job)) (to_dict_records df) /\
  forall cells k,
    dict_get (dict_of_items (combine (columns df) cells)) k =
    dict_get (rev (combine (columns df) cells)) k.
Proof.
  unfold to_dict_records, df_len; split; [apply length_map|split].
  - apply Forall_forall; intros job Hin.
    apply in_map_iff in Hin as (cells & <- & _).
    apply fold_dict_set_keys_unique; constructor.
  - intros cells k; unfold dict_of_items; rewrite fold_dict_set_get.
    now destruct (dict_get (rev (combine (columns df) cells)) k).
Qed.

(** When the column labels are distinct, each record is the row as it
    stands: the labels paired with the cells, in the order of the columns. *)
Theorem records_of_distinct_columns (df : DataFrame) :
  NoDup (columns df) ->
  to_dict_records df = map (combine (columns df)) (data df).
Proof.
  intros Hnd; unfold to_dict_records; apply map_ext; intros cells.
  unfold dict_of_items; rewrite fold_dict_set_fresh; [reflexivity|].
  now apply combine_keys_unique.
Qed.

End Records.

(** ** The cleaned job, field by field *)

Section CleanedJob.

Context {S : Type}.
Variable env : Env S.
Implicit Types w : world S.

Lemma dict_has_keys d k : dict_has d k = true <-> In k (dict_keys d).
Proof.
  unfold dict_has; pose proof (dict_get_none_keys d k) as H.
  destruct (dict_get d k); split; intros; try discriminate; auto.
  - destruct (in_dec string_dec k (dict_keys d)); [assumption|].
    assert (Some p = None) by (apply H; assumption); discriminate.
  - exfalso; apply (proj1 H eq_refl); assumption.
Qed.

Lemma dict_has_same_keys d1 d2 k :
  dict_keys d1 = dict_keys d2 -> dict_has d1 k = dict_has d2 k.
Proof.
  intros Hk; pose proof (dict_has_keys d1 k) as H1; pose proof (dict_has_keys d2 k) as H2.
  rewrite Hk in H1.
  destruct (dict_has d1 k), (dict_has d2 k); auto.
  - symmetry; apply H2, H1; reflexivity.
  - apply H1, H2; reflexivity.
Qed.

Lemma clean_items_keys legacy items : forall cleaned_job fields d,
  clean_items legacy items cleaned_job = Ok fields ->
  dict_keys cleaned_job = dict_keys d ->
  dict_keys fields =
  dict_keys (fold_left (fun d kv => dict_set d (fst kv) (snd kv)) items d).
Proof.
  induction items as [|[key value] rest IH]; intros acc fields d Hc Hk.
  - simpl in *; congruence.
  - cbn [clean_items] in Hc; unfold bind_result in Hc.
    destruct (clean_value legacy key value) as [c|e]; [|discriminate].
    simpl; apply (IH _ _ _ Hc).
    now rewrite !dict_set_keys, (dict_has_same_keys _ _ _ Hk), Hk.
Qed.

(** X1.  One turn of the cleaning loop on a job with distinct keys either
    raises, leaving the world as it was, or hands back a job with the same
    keys in the same order, followed by [scraped_at] when the job had no such
    key; [scraped_at] then holds the reading of the clock taken in this turn,
    so a [scraped_at] column of the table is overwritten. *)
Theorem clean_job_keeps_columns_and_stamps (job : dict) w :
  NoDup (dict_keys job) ->
  match clean_job env job w with
  | (Ok cleaned_job, w') =>
      dict_keys cleaned_job =
        (if dict_has job "scraped_at" then dict_keys job
         else dict_keys job ++ ["scraped_at"%string]) /\
      dict_get cleaned_job "scraped_at" =
        Some (Scalar (PStr (now_isoformat env (trace w)))) /\
      w' = mkWorld (store w) (trace w ++ [Now (now_isoformat env (trace w))])
  | (Raise e, w') =>
      clean_items (numpy_legacy env) job [] = Raise e /\ w' = w
  end.
Proof.
  intros Hnd; pose proof (clean_job_runs env job w) as Hr.
  destruct (clean_items (numpy_legacy env) job []) as [fields|e] eqn:Hc;
    unfold runs in Hr; rewrite Hr.
  - assert (Hk : dict_keys fields = dict_keys job).
    { rewrite (clean_items_keys _ _ _ _ [] Hc eq_refl).
      now rewrite (fold_dict_set_fresh job []). }
    split; [|split; [apply dict_get_set_same | reflexivity]].
    now rewrite dict_set_keys, (dict_has_same_keys _ _ _ Hk), Hk.
  - split; [reflexivity|]; destruct w; simpl; now rewrite app_nil_r.
Qed.

(** X2.  In a cleaned record of a table every field but [scraped_at] holds
    the cleaned value of the cell of the same name, and no other field is
    there; in particular an [id] that is present comes out as its string. *)
Theorem cleaned_record_is_fieldwise (legacy : bool) (df : DataFrame)
  (job cleaned_job : dict) (k : string) :
  In job (to_dict_records df) ->
  cleaned_from legacy job cleaned_job ->
  k <> "scraped_at"%string ->
  match dict_get job k with
  | Some v => exists c, clean_value legacy k v = Ok c /\ dict_get cleaned_job k = Some c
  | None => dict_get cleaned_job k = None
  end /\
  (forall x : scalar,
      k = "id"%string -> dict_get job k = Some (Scalar x) -> Pandas.checknull x = false ->
      dict_get cleaned_job k = Some (Scalar (PStr (scalar_str x)))).
Proof.
  intros Hin Hcf Hk.
  assert (Hnd : NoDup (dict_keys job)).
  { unfold to_dict_records in Hin; apply in_map_iff in Hin as (cells & <- & _).
    apply fold_dict_set_keys_unique; constructor. }
  split.
  - destruct Hcf as (fields & iso & Hc & ->).
    rewrite dict_get_set_other by exact Hk.
    pose proof (clean_items_get legacy job [] fields k Hnd Hc) as H.
    destruct (dict_get job k) as [v|]; [|exact H].
    destruct H as [Hv Hsome].
    destruct (dict_get fields k) as [c|]; [eauto | congruence].
  - intros x -> Hid Hx.
    now destruct (cleaned_job_has_id_and_timestamp legacy job cleaned_job x Hnd Hcf Hid Hx).
Qed.

End CleanedJob.

(** ** The cleaning of a field, by class of field *)

Section FieldClasses.

Lemma truth_false_not_none legacy value :
  Pandas.truth legacy (Pandas.isna value) = Ok false -> is_None value = false.
Proof. destruct value as [[]|xs]; simpl; auto; discriminate. Qed.

(** X3.  Whenever the cleaning of a field does not raise, the cleaned value
    has the target type of the field: [None], or an [int] for a count-like
    field, a [float] for [company_rating], a list for [skills] and [emails],
    a [str] for every other field. *)
Theorem cleaned_value_conforms (legacy : bool) (key : string) (value : pyval) :
  match clean_value legacy key value with
  | Ok c => conforms key c = true
  | Raise _ => True
  end.
Proof.
  unfold clean_value.
  destruct (Pandas.truth legacy (Pandas.isna value)) as [[|]|e] eqn:Ht;
    cbn [bind_result]; cbv iota; auto.
  rewrite (truth_false_not_none _ _ Ht); cbn [negb]; rewrite !andb_true_r.
  destruct (key_in key count_fields) eqn:Hc; cbv iota.
  - unfold to_count, str_of, except_ValueError_TypeError, PyFloat.of_string.
    destruct (str_raises value);
      cbn [bind_result str_limit_error is_ValueError_or_TypeError]; cbv iota;
      [reflexivity|].
    destruct (String.eqb (py_str value) "nan"); cbn [negb]; cbv iota; [reflexivity|].
    destruct (PyFloat.parse (py_str value)) as [[s|s| |s m e]|];
      cbn [bind_result PyFloat.to_int is_ValueError_or_TypeError]; cbv iota; auto.
  - destruct (key_in key array_fields) eqn:Ha; cbv iota.
    + destruct value as [[]|xs]; cbn [to_array conforms]; now rewrite ?Hc, ?Ha.
    + destruct (String.eqb key "company_rating") eqn:Hr; cbv iota.
      * unfold to_rating, str_of, except_ValueError_TypeError, PyFloat.of_string.
        destruct (str_raises value);
          cbn [bind_result str_limit_error is_ValueError_or_TypeError]; cbv iota;
          [reflexivity|].
        destruct (String.eqb (py_str value) "nan"); cbn [negb]; cbv iota; [reflexivity|].
        destruct (PyFloat.parse (py_str value)) as [f|];
          cbn [bind_result is_ValueError_or_TypeError conforms]; cbv iota;
          now rewrite ?Hc, ?Ha, ?Hr.
      * unfold to_text, str_of; rewrite (truth_false_not_none _ _ Ht); cbn [negb]; cbv iota.
        destruct (str_raises value); cbn [bind_result conforms]; [exact I|].
        now rewrite Hc, Ha, Hr.
Qed.

Lemma clean_value_ok_iff (legacy : bool) (key : string) (value : pyval) :
  is_Ok (clean_value legacy key value) = negb (cleaning_aborts legacy key value).
Proof.
  unfold clean_value, cleaning_aborts.
  destruct (Pandas.truth legacy (Pandas.isna value)) as [[|]|e] eqn:Ht;
    cbn [bind_result]; cbv iota; auto.
  rewrite (truth_false_not_none _ _ Ht); cbn [negb]; rewrite !andb_true_r.
  destruct (key_in key count_fields) eqn:Hc; cbv iota; cbn [andb].
  - unfold to_count, str_of, except_ValueError_TypeError, PyFloat.of_string.
    destruct (str_raises value);
      cbn [bind_result str_limit_error is_ValueError_or_TypeError negb andb]; cbv iota;
      [reflexivity|].
    destruct (String.eqb (py_str value) "nan") eqn:Hn; cbn [negb]; cbv iota.
    + apply String.eqb_eq in Hn; rewrite Hn; reflexivity.
    + destruct (PyFloat.parse (py_str value)) as [[s|s| |s m e]|];
        cbn [bind_result PyFloat.to_int is_ValueError_or_TypeError is_infinite]; reflexivity.
  - destruct (key_in key array_fields); cbv iota; [reflexivity|].
    destruct (String.eqb key "company_rating"); cbv iota.
    + unfold to_rating, str_of, except_ValueError_TypeError, PyFloat.of_string.
      destruct (str_raises value);
        cbn [bind_result str_limit_error is_ValueError_or_TypeError]; cbv iota;
        [reflexivity|].
      destruct (String.eqb (py_str value) "nan"); cbn [negb]; cbv iota; [reflexivity|].
      destruct (PyFloat.parse (py_str value));
        cbn [bind_result is_ValueError_or_TypeError]; reflexivity.
    + unfold to_text, str_of; rewrite (truth_false_not_none _ _ Ht); cbn [negb]; cbv iota.
      destruct (str_raises value); reflexivity.
Qed.

Lemma truth_raises_iff (legacy : bool) (value : pyval) :
  is_Ok (Pandas.truth legacy (Pandas.isna value)) = false <->
  exists xs, value = PList xs /\ (2 <= List.length xs \/ (xs = [] /\ legacy = false)).
Proof.
  destruct value as [x|xs]; cbn [Pandas.isna Pandas.truth is_Ok].
  - split; [discriminate | intros (xs & [=] & _)].
  - destruct xs as [|a [|b xs]]; cbn [map Pandas.truth].
    + destruct legacy; cbn [is_Ok]; split.
      * discriminate.
      * intros (xs & [= <-] & [H|[_ [=]]]); cbn in H; lia.
      * intros _; exists []; auto.
      * reflexivity.
    + cbn [is_Ok]; split; [discriminate|].
      intros (xs & [= <-] & [H|[[=] _]]); cbn in H; lia.
    + cbn [is_Ok]; split; [|reflexivity].
      intros _; exists (a :: b :: xs); split; [reflexivity|left; cbn; lia].
Qed.

(** X4.  The cleaning of a field raises in three cases and no other: the
    cell is a list on which the truth value of [pd.isna] is undefined (two or
    more elements, or none under a NumPy that refuses the empty array); the
    field is count-like, [str] of the cell returns and its text reads as an
    infinite float; the field is of no special class (not count-like, not
    list-like, not [company_rating]) and [str] of the cell raises, the cell
    being or holding an [int] of more than 4300 digits.  Every other cell,
    under every key, is cleaned without an exception. *)
Theorem cleaning_raises_exactly_when (legacy : bool) (key : string) (value : pyval) :
  is_Ok (clean_value legacy key value) = negb (cleaning_aborts legacy key value) /\
  (cleaning_aborts legacy key value = true <->
   (exists xs, value = PList xs /\
               (2 <= List.length xs \/ (xs = [] /\ legacy = false))) \/
   (Pandas.truth legacy (Pandas.isna value) = Ok false /\
    key_in key count_fields = true /\
    str_raises value = false /\
    is_infinite (PyFloat.parse (py_str value)) = true) \/
   (Pandas.truth legacy (Pandas.isna value) = Ok false /\
    key_in key count_fields = false /\
    key_in key array_fields = false /\
    String.eqb key "company_rating" = false /\
    str_raises value = true)).
Proof.
  split; [apply clean_value_ok_iff|].
  pose proof (truth_raises_iff legacy value) as Hr.
  unfold cleaning_aborts.
  destruct (Pandas.truth legacy (Pandas.isna value)) as [[|]|e] eqn:Ht; cbn [is_Ok] in Hr.
  - split; [discriminate|].
    intros [H|[(H & _)|(H & _)]]; [apply Hr in H; discriminate | discriminate..].
  - split.
    + intros H; right.
      destruct (key_in key count_fields) eqn:Hc.
      * apply andb_true_iff in H as [H1 H2]; apply negb_true_iff in H1; left; auto.
      * destruct (key_in key array_fields) eqn:Ha; [discriminate|].
        destruct (String.eqb key "company_rating") eqn:Hk; [discriminate|].
        right; auto.
    + intros [H|[(_ & Hc & Hs & Hi)|(_ & Hc & Ha & Hk & Hs)]].
      * apply Hr in H; discriminate.
      * now rewrite Hc, Hs, Hi.
      * now rewrite Hc, Ha, Hk, Hs.
  - split; [|reflexivity].
    intros _; left; apply Hr; reflexivity.
Qed.

(** The smallest [int] of 4301 digits: [str] raises, which a count-like
    field and [company_rating] turn into [None] and a field of no special
    class lets through.  On the [int] before it, of 4300 digits, [str]
    returns. *)
Example text_of_huge_int legacy :
  clean_value legacy "title" (Scalar (PInt (10 ^ int_max_str_digits)))
  = Raise str_limit_error /\
  clean_value legacy "min_amount" (Scalar (PInt (10 ^ int_max_str_digits)))
  = Ok (Scalar PNone) /\
  clean_value legacy "company_rating" (Scalar (PInt (- 10 ^ int_max_str_digits)))
  = Ok (Scalar PNone) /\
  clean_value legacy "title" (Scalar (PInt (10 ^ int_max_str_digits - 1)))
  = Ok (Scalar (PStr (PyStr.of_Z (10 ^ int_max_str_digits - 1)))).
Proof.
  assert (Hpos : (0 < 10 ^ int_max_str_digits)%Z)
    by (apply Z.pow_pos_nonneg; unfold int_max_str_digits; lia).
  assert (H1 : scalar_str_raises (PInt (10 ^ int_max_str_digits)) = true).
  { unfold scalar_str_raises; apply Z.leb_le; rewrite Z.abs_eq; [apply Z.le_refl|].
    now apply Z.lt_le_incl. }
  assert (H2 : scalar_str_raises (PInt (- 10 ^ int_max_str_digits)) = true).
  { unfold scalar_str_raises; apply Z.leb_le; rewrite Z.abs_opp, Z.abs_eq; [apply Z.le_refl|].
    now apply Z.lt_le_incl. }
  assert (H3 : scalar_str_raises (PInt (10 ^ int_max_str_digits - 1)) = false).
  { unfold scalar_str_raises; apply Z.leb_gt; rewrite Z.abs_eq.
    - apply Z.lt_pred_l.
    - apply Z.lt_le_pred; exact Hpos. }
  revert H1 H2 H3; generalize (10 ^ int_max_str_digits)%Z as big; intros big H1 H2 H3.
  unfold clean_value, to_text, to_count, to_rating, str_of.
  cbn [Pandas.isna Pandas.truth Pandas.checknull bind_result str_raises is_None negb].
  rewrite H1, H2, H3; destruct legacy; repeat split; reflexivity.
Qed.

End FieldClasses.

(** ** The splitting of a list-like field *)

Section Splitting.

Lemma lstrip_head s c r : PyStr.lstrip s = String c r -> PyStr.is_space c = false.
Proof.
  induction s as [|d s IH]; simpl; [discriminate|].
  destruct (PyStr.is_space d) eqn:E; [exact IH|].
  intros [= <- <-]; exact E.
Qed.

Lemma rstrip_idempotent s : PyStr.rstrip (PyStr.rstrip s) = PyStr.rstrip s.
Proof.
  induction s as [|c s IH]; [reflexivity|]; cbn [PyStr.rstrip].
  destruct (PyStr.is_space c && PyStr.is_empty (PyStr.rstrip s)) eqn:E; [reflexivity|].
  cbn [PyStr.rstrip]; now rewrite IH, E.
Qed.

Lemma strip_idempotent s : PyStr.strip (PyStr.strip s) = PyStr.strip s.
Proof.
  unfold PyStr.strip.
  assert (H : PyStr.lstrip (PyStr.rstrip (PyStr.lstrip s)) = PyStr.rstrip (PyStr.lstrip s)).
  { destruct (PyStr.lstrip s) as [|c r] eqn:E; [reflexivity|].
    apply lstrip_head in E; cbn [PyStr.rstrip]; rewrite E; cbn [andb].
    cbn [PyStr.lstrip]; now rewrite E. }
  rewrite H; apply rstrip_idempotent.
Qed.

Lemma contains_lstrip c s : PyStr.contains c s = false -> PyStr.contains c (PyStr.lstrip s) = false.
Proof.
  induction s as [|d s IH]; simpl; [auto|].
  intros H; apply orb_false_iff in H as [Hd Hs].
  destruct (PyStr.is_space d); [auto|]; simpl; now rewrite Hd, Hs.
Qed.

Lemma contains_rstrip c s : PyStr.contains c s = false -> PyStr.contains c (PyStr.rstrip s) = false.
Proof.
  induction s as [|d s IH]; [auto|]; cbn [PyStr.rstrip PyStr.contains].
  intros H; apply orb_false_iff in H as [Hd Hs].
  destruct (PyStr.is_space d && PyStr.is_empty (PyStr.rstrip s)); [reflexivity|].
  cbn [PyStr.contains]; now rewrite Hd, IH.
Qed.

Lemma split_pieces_without_separator sep s :
  Forall (fun p => PyStr.contains sep p = false) (PyStr.split sep s).
Proof.
  induction s as [|c s IH]; cbn [PyStr.split]; [repeat constructor|].
  destruct (Ascii.eqb c sep) eqn:E; [constructor; [reflexivity|exact IH]|].
  destruct (PyStr.split sep s) as [|h t]; [repeat constructor; simpl|].
  - now rewrite Ascii.eqb_sym, E.
  - inversion IH as [|? ? Hh Ht]; subst; constructor; [|exact Ht].
    cbn [PyStr.contains]; now rewrite Ascii.eqb_sym, E, Hh.
Qed.

(** X5.  The list made from a comma-separated string holds no empty string,
    no string with white space at either end, and no string with a comma. *)
Theorem split_skills_elements_are_trimmed (s : string) :
  Forall (fun skill =>
            PyStr.is_empty skill = false /\
            PyStr.strip skill = skill /\
            PyStr.contains "," skill = false)
    (split_skills s).
Proof.
  unfold split_skills; apply Forall_forall; intros skill Hin.
  apply in_map_iff in Hin as (p & <- & Hp).
  apply filter_In in Hp as [Hp Hne].
  split; [now apply negb_true_iff in Hne|split; [apply strip_idempotent|]].
  pose proof (split_pieces_without_separator "," s) as HF.
  rewrite Forall_forall in HF.
  unfold PyStr.strip; apply contains_rstrip, contains_lstrip, HF, Hp.
Qed.

End Splitting.

(** ** Runs that fetch nothing, and what no run logs *)

Section QuietRuns.

Context {S : Type}.
Variable env : Env S.
Implicit Types w : world S.

Lemma process_location_idle self location total w :
  df_empty (fetched_frame (provider_answer env self location w)) = true ->
  runs (process_location env self location total) w (Ok total) (store w)
    (fetch_trace self location (provider_answer env self location w) ++ [Sleep 10]).
Proof.
  intros He.
  pose proof (scrape_jobs_for_location_runs env self location w) as Hf.
  rewrite (fetched_frame_empty _ He) in Hf.
  unfold process_location.
  eapply runs_bind_ok; [exact Hf|].
  reflexivity.
Qed.

Lemma fetch_trace_idle self location answer :
  forallb is_idle_event (fetch_trace self location answer) = true.
Proof.
  unfold fetch_trace.
  destruct (fetch_log_is_log location answer) as (lvl & msg & ->); reflexivity.
Qed.

Lemma idle_events_show t :
  forallb is_idle_event t = true ->
  upsert_calls t = 0 /\ clock_readings t = [] /\ chunk_pauses t = 0.
Proof.
  unfold upsert_calls, upsert_batches, clock_readings, chunk_pauses.
  induction t as [|e t IH]; simpl; [auto|].
  intros H; apply andb_true_iff in H as [He Ht].
  destruct (IH Ht) as (H1 & H2 & H3).
  destruct e as [| | | | [|[|[|n]]] | |]; simpl in *; try discriminate; auto.
Qed.

(** X14.  When no fetch hands back a record (the provider raises, answers
    nothing or finds nothing at every location), the run still visits every
    location and pauses after each, issues no upsert call, never reads the
    clock, leaves the store as it was, and reports a total of 0. *)
Theorem run_without_records_writes_nothing (self : JobScraper) w :
  (forall t site_name term location wanted hours country,
      df_empty (fetched_frame
                  (scrape_jobs env t site_name term location wanted hours country)) = true) ->
  exists t,
    runs (run_scrape env self) w (Ok true) (store w)
      (Log INFO "Starting job scraping..." :: t ++
       [Log INFO "Job scraping completed! Total jobs processed: 0"]) /\
    partition_marks t = flat_map (fun l => [Some l; None]) (locations self) /\
    upsert_calls t = 0 /\ clock_readings t = [] /\ chunk_pauses t = 0.
Proof.
  intros Hnone.
  assert (Hloop : forall locs total w0,
             exists t,
               runs (for_locations (process_location env self) locs total) w0 (Ok total)
                 (store w0) t /\
               forallb is_idle_event t = true /\
               partition_marks t = flat_map (fun l => [Some l; None]) locs).
  { induction locs as [|location rest IH]; intros total w0.
    - exists []; split; [apply runs_ret | auto].
    - pose proof (process_location_idle self location total w0 (Hnone _ _ _ _ _ _ _)) as Hp.
      remember (fetch_trace self location (provider_answer env self location w0)) as tf.
      destruct (IH total (mkWorld (store w0) (trace w0 ++ tf ++ [Sleep 10])))
        as (t & Ht & Hidle & Hmarks).
      exists ((tf ++ [Sleep 10]) ++ t); split; [|split].
      + cbn [for_locations].
        eapply runs_bind_ok; [apply runs_try_ok; exact Hp | exact Ht].
      + rewrite !forallb_app, Hidle; subst tf; now rewrite fetch_trace_idle.
      + unfold partition_marks in *; rewrite !flat_map_app, Hmarks; subst tf.
        destruct (fetch_trace_shows self location (provider_answer env self location w0))
          as (_ & F2 & _).
        unfold partition_marks in F2; rewrite F2; reflexivity. }
  destruct (Hloop (locations self) 0
              (mkWorld (store w) (trace w ++ [Log INFO "Starting job scraping..."])))
    as (t & Ht & Hidle & Hmarks).
  exists t; split; [|split; [exact Hmarks | now apply idle_events_show]].
  unfold run_scrape, scrape_all.
  change (Log INFO "Starting job scraping..." :: t ++
          [Log INFO "Job scraping completed! Total jobs processed: 0"])
    with ([Log INFO "Starting job scraping..."] ++ (t ++
          [Log INFO "Job scraping completed! Total jobs processed: 0"])).
  eapply runs_bind_ok; [apply runs_emit|].
  eapply runs_bind_ok; [exact Ht|].
  reflexivity.
Qed.

Lemma not_partition_error_batch answers bs t :
  batch_trace answers bs t -> forallb not_partition_error t = true.
Proof.
  induction 1 as [|b f rest t _ _ IH]; [reflexivity|].
  cbn [forallb]; rewrite forallb_app, IH; destruct f; reflexivity.
Qed.

Lemma not_partition_error_write answers legacy df ti :
  partition_write answers legacy df ti -> forallb not_partition_error ti = true.
Proof.
  unfold partition_write; destruct (df_empty df).
  - intros ->; reflexivity.
  - intros (tc & tw & written & -> & Hnow & Hw).
    rewrite forallb_app; apply andb_true_iff; split.
    + clear -Hnow; induction tc as [|e tc IH]; [reflexivity|]; simpl in *.
      apply andb_true_iff in Hnow as [He Ht]; rewrite (IH Ht).
      destruct e; try discriminate; reflexivity.
    + destruct Hw; [eapply not_partition_error_batch; eassumption | reflexivity].
Qed.

(** X15.  The body of the location loop never raises, so the handler of
    lines 160-162 never runs: whatever provider and store do, no run logs an
    error of the form [Error processing ...]. *)
Theorem partition_handler_is_never_reached (self : JobScraper) w :
  (forall location total,
      exists total' s' t, runs (process_location env self location total) w (Ok total') s' t) /\
  exists s' t,
    runs (run_scrape env self) w (Ok true) s' t /\
    forallb not_partition_error t = true.
Proof.
  split.
  - intros location total.
    destruct (process_location_runs env self location total w) as (s' & ti & Hr & _); eauto.
  - destruct (run_scrape_runs env self w) as (s' & total & t & Hr & Hpt).
    eexists _, _; split; [exact Hr|].
    cbn [forallb not_partition_error andb]; rewrite forallb_app.
    apply andb_true_iff; split; [|reflexivity].
    clear Hr; induction Hpt as [total|location rest answer ti total total' t Hw _ IH];
      [reflexivity|].
    rewrite !forallb_app, (not_partition_error_write _ _ _ _ Hw); cbn [forallb].
    rewrite IH, !andb_true_r.
    unfold fetch_trace; destruct answer as [[|d|ty]|e]; cbn; try reflexivity.
    destruct (df_empty d); reflexivity.
Qed.

End QuietRuns.

(** ** Setup and timestamps *)

Section SetupAndStamps.

Context {S : Type}.
Variable env : Env S.
Implicit Types w : world S.

(** X16.  [__init__] raises [ValueError] as soon as one of the two
    variables is unset or empty, before anything is called.  Otherwise it
    creates the client and probes the table: a failure of either is logged
    once and raised again unchanged, and only when both succeed is the
    configured scraper handed back.  The store is never changed. *)
Theorem setup_fails_early_or_reraises w :
  match getenv env "SUPABASE_URL", getenv env "SUPABASE_ANON_KEY" with
  | Some url, Some key =>
      if PyStr.is_empty url || PyStr.is_empty key then
        JobScraper_init env w =
        (Raise (ValueError
                  "SUPABASE_URL and SUPABASE_ANON_KEY environment variables must be set"), w)
      else
        exists r t,
          runs (JobScraper_init env) w r (store w)
            (CreateClient url key (create_client env (trace w) url key) :: t) /\
          match create_client env (trace w) url key with
          | Some e =>
              r = Raise e /\
              t = [Log ERROR ("Supabase connection failed: " ++ exn_str e)]
          | None =>
              match select_probe env (store w) (trace w ++ [CreateClient url key None]) with
              | Some e =>
                  r = Raise e /\
                  t = [SelectProbe "job_listings" (Some e);
                       Log ERROR ("Supabase connection failed: " ++ exn_str e)]
              | None =>
                  r = Ok configured_scraper /\
                  t = [SelectProbe "job_listings" None;
                       Log INFO "Supabase connection successful"]
              end
          end
  | _, _ =>
      JobScraper_init env w =
      (Raise (ValueError
                "SUPABASE_URL and SUPABASE_ANON_KEY environment variables must be set"), w)
  end.
Proof.
  unfold JobScraper_init, falsy.
  destruct (getenv env "SUPABASE_URL") as [url|]; [|reflexivity].
  destruct (getenv env "SUPABASE_ANON_KEY") as [key|];
    [|destruct (PyStr.is_empty url); reflexivity].
  destruct (PyStr.is_empty url); [reflexivity|].
  destruct (PyStr.is_empty key); [reflexivity|]; cbn [orb].
  unfold runs, bind, try_except, call_create_client, call_select_probe, log, emit, raise, ret.
  cbn [store trace].
  destruct (create_client env (trace w) url key) as [e|]; cbn [of_failure store trace].
  - eexists _, _; split; [|split; reflexivity].
    now rewrite <- app_assoc.
  - destruct (select_probe env (store w) (trace w ++ [CreateClient url key None])) as [e|];
      cbn [of_failure store trace];
      (eexists _, _; split; [|split; reflexivity]); now rewrite <- !app_assoc.
Qed.

Lemma clean_jobs_stamps jobs : forall acc w,
  exists r t,
    runs (clean_jobs env jobs acc) w r (store w) t /\
    forallb is_now t = true /\
    match r with
    | Ok cleaned_jobs =>
        exists cs,
          cleaned_jobs = acc ++ cs /\
          List.length cs = List.length jobs /\
          map (fun c => dict_get c "scraped_at") cs =
          map (fun iso => Some (Scalar (PStr iso))) (clock_readings t)
    | Raise _ => List.length (clock_readings t) < List.length jobs
    end.
Proof.
  induction jobs as [|job jobs IH]; intros acc w.
  - exists (Ok acc), []; split; [apply runs_ret|split; [reflexivity|]].
    exists []; now rewrite app_nil_r.
  - cbn [clean_jobs]; pose proof (clean_job_runs env job w) as Hj.
    destruct (clean_items (numpy_legacy env) job []) as [fields|e].
    + set (iso := now_isoformat env (trace w)) in *.
      set (c := dict_set fields "scraped_at" (Scalar (PStr iso))) in *.
      destruct (IH (acc ++ [c]) (mkWorld (store w) (trace w ++ [Now iso])))
        as (r & t & Ht & Hnow & Hr).
      exists r, ([Now iso] ++ t); split; [|split; [exact Hnow|]].
      * eapply runs_bind_ok; [exact Hj | exact Ht].
      * destruct r as [cleaned|e]; cbn [app clock_readings flat_map].
        -- destruct Hr as (cs & -> & Hlen & Hmap).
           exists (c :: cs); split; [now rewrite <- app_assoc|].
           cbn [List.length map]; split; [now rewrite Hlen|].
           unfold clock_readings in Hmap; rewrite Hmap; f_equal.
           apply dict_get_set_same.
        -- cbn [List.length]; unfold clock_readings in Hr; lia.
    + exists (Raise e), []; split; [now apply runs_bind_raise|split; [reflexivity|]].
      cbn; lia.
Qed.

(** X11.  The cleaning reads the clock once per record, in the order of
    the records, right after the fields of the record are cleaned: when it
    succeeds there are as many cleaned records as rows and their [scraped_at]
    are the readings in that order; when a record raises, fewer readings were
    taken than there are rows.  It only reads the clock: the store is
    unchanged. *)
Theorem cleaning_stamps_each_record (jobs : list dict) w :
  exists r t,
    runs (clean_jobs env jobs []) w r (store w) t /\
    forallb is_now t = true /\
    match r with
    | Ok cleaned_jobs =>
        List.length cleaned_jobs = List.length jobs /\
        map (fun c => dict_get c "scraped_at") cleaned_jobs =
        map (fun iso => Some (Scalar (PStr iso))) (clock_readings t)
    | Raise _ => List.length (clock_readings t) < List.length jobs
    end.
Proof.
  destruct (clean_jobs_stamps jobs [] w) as (r & t & Hr & Hnow & H).
  exists r, t; split; [exact Hr|split; [exact Hnow|]].
  destruct r as [cleaned|e]; [|exact H].
  destruct H as (cs & -> & Hlen & Hmap); auto.
Qed.

End SetupAndStamps.

(** ** Whole numbers through [float] *)

Section ExactFloats.
Local Open Scope Z_scope.

Lemma digits2_bound (p : positive) :
  2 ^ (Zpos (digits2_pos p) - 1) <= Zpos p < 2 ^ Zpos (digits2_pos p).
Proof.
  induction p as [p IH|p IH|]; cbn [digits2_pos]; [| |simpl; lia].
  all: rewrite Pos2Z.inj_succ;
    replace (Z.succ (Zpos (digits2_pos p)) - 1) with (Z.succ (Zpos (digits2_pos p) - 1)) by lia;
    rewrite !Z.pow_succ_r by lia; lia.
Qed.

Lemma digits2_shift (p : positive) (j : Z) :
  0 <= j ->
  exists q, Zpos q = Zpos p * 2 ^ j /\ Zpos (digits2_pos q) = Zpos (digits2_pos p) + j.
Proof.
  intros Hj; pattern j; apply natlike_ind; [| |exact Hj].
  - exists p; split; [rewrite Z.pow_0_r|]; lia.
  - intros k Hk (q & Hq & Hd); exists (xO q); split.
    + rewrite Z.pow_succ_r by lia; lia.
    + cbn [digits2_pos]; rewrite Pos2Z.inj_succ; lia.
Qed.

Lemma SFdiv_by_one (s : bool) (p : positive) :
  Zpos (digits2_pos p) <= 53 ->
  exists q,
    SFdiv 53 1024 (S754_finite s p 0) (S754_finite false 1 0)
    = S754_finite s q (Zpos (digits2_pos p) - 53) /\
    Zpos q = Zpos p * 2 ^ (53 - Zpos (digits2_pos p)).
Proof.
  intros Hd. set (d := Zpos (digits2_pos p)) in *.
  assert (Hd1 : 1 <= d) by (unfold d; lia).
  destruct (digits2_shift p (53 - d)) as (q & Hq & Hdq); [lia|].
  fold d in Hdq.
  exists q; split; [|exact Hq].
  unfold SFdiv, SFdiv_core_binary.
  change (Zdigits2 (Zpos p)) with d. change (Zdigits2 1) with 1.
  replace (Z.min (fexp 53 1024 (d + 0 - (1 + 0))) (0 - 0)) with (d - 54)
    by (unfold fexp, emin; lia).
  replace (0 - 0 - (d - 54)) with (Z.succ (53 - d)) by lia.
  assert (Hsh : match Z.succ (53 - d) with
                | Z0 => Zpos p | Zpos _ => Z.shiftl (Zpos p) (Z.succ (53 - d)) | Zneg _ => 0
                end = Zpos (xO q)).
  { destruct (Z.succ (53 - d)) eqn:E; try lia.
    rewrite <- E, Z.shiftl_mul_pow2, Z.pow_succ_r by lia. lia. }
  rewrite Hsh.
  assert (Hdiv : Z.div_eucl (Zpos (xO q)) 1 = (Zpos (xO q), 0)).
  { pose proof (Z.div_1_r (Zpos (xO q))) as H1; pose proof (Z.mod_1_r (Zpos (xO q))) as H2.
    unfold Z.div, Z.modulo in *. destruct (Z.div_eucl (Zpos (xO q)) 1); simpl in *; congruence. }
  rewrite Hdiv.
  change (new_location 1 0) with loc_Exact.
  unfold binary_round_aux, shr_fexp.
  cbn [shr_record_of_loc].
  change (Zdigits2 (Zpos (xO q))) with (Zpos (Pos.succ (digits2_pos q))).
  rewrite Pos2Z.inj_succ, Hdq.
  replace (fexp 53 1024 (Z.succ (d + (53 - d)) + (d - 54)) - (d - 54)) with 1
    by (unfold fexp, emin; lia).
  cbn [shr iter_pos shr_1 shr_m loc_of_shr_record orb]; cbn [round_nearest_even].
  change (Zdigits2 (Zpos q)) with (Zpos (digits2_pos q)); rewrite Hdq.
  replace (fexp 53 1024 (d + (53 - d) + (d - 54 + 1)) - (d - 54 + 1)) with 0
    by (unfold fexp, emin; lia).
  cbn [shr shr_m].
  replace (d - 54 + 1 <=? 1024 - 53) with true by (symmetry; apply Z.leb_le; lia).
  rewrite xorb_false_r; f_equal; lia.
Qed.

Lemma of_decimal_exact (s : bool) (n : Z) :
  0 < n < 2 ^ 53 ->
  exists q e,
    PyFloat.of_decimal s n 0 = S754_finite s q e /\ e <= 0 /\ Zpos q = n * 2 ^ (- e).
Proof.
  intros [Hpos Hlt]; unfold PyFloat.of_decimal.
  destruct (n <=? 0) eqn:E; [apply Z.leb_le in E; lia|].
  cbn [Z.leb Z.compare Z.pow]; rewrite Z.mul_1_r.
  destruct n as [|p|p]; try lia; cbn [Z.to_pos].
  pose proof (digits2_bound p) as [Hlo _].
  assert (Hd : Zpos (digits2_pos p) <= 53).
  { destruct (Z_le_gt_dec (Zpos (digits2_pos p)) 53) as [|Hgt]; [assumption|].
    assert (2 ^ 53 <= 2 ^ (Zpos (digits2_pos p) - 1)) by (apply Z.pow_le_mono_r; lia).
    lia. }
  destruct (SFdiv_by_one s p Hd) as (q & Hq & Hv).
  exists q, (Zpos (digits2_pos p) - 53); split; [exact Hq|split; [lia|]].
  rewrite Hv; f_equal; f_equal; lia.
Qed.

Lemma int_of_decimal (s : bool) (n : Z) :
  0 <= n < 2 ^ 53 ->
  PyFloat.to_int (PyFloat.of_decimal s n 0) = Ok (if s then - n else n).
Proof.
  intros [Hnn Hlt].
  destruct (Z.eq_dec n 0) as [->|Hne]; [destruct s; reflexivity|].
  destruct (of_decimal_exact s n) as (q & e & -> & He & Hq); [lia|].
  cbn [PyFloat.to_int].
  assert (Ha : (if 0 <=? e then Zpos q * 2 ^ e else Zpos q / 2 ^ (- e)) = n).
  { destruct (0 <=? e) eqn:E.
    - apply Z.leb_le in E; assert (e = 0) by lia; subst e.
      rewrite Hq; simpl; lia.
    - rewrite Hq, Z.div_mul; [reflexivity|].
      apply Z.pow_nonzero; lia. }
  now rewrite Ha.
Qed.

End ExactFloats.

Section WholeNumbers.

Lemma digit_code c : PyStr.is_digit c = true -> (48 <= PyStr.code c <= 57)%nat.
Proof.
  unfold PyStr.is_digit, PyStr.between; intros H.
  apply andb_true_iff in H as [H1 H2].
  apply Nat.leb_le in H1; apply Nat.leb_le in H2; lia.
Qed.

Lemma code_range_bool lo hi c :
  PyStr.between lo hi c = true <-> (lo <= PyStr.code c <= hi)%nat.
Proof.
  unfold PyStr.between; rewrite andb_true_iff, !Nat.leb_le; tauto.
Qed.

Lemma digit_not_blank c : PyStr.is_digit c = true -> PyFloat.is_blank c = false.
Proof.
  intros H; apply digit_code in H; unfold PyFloat.is_blank.
  destruct (PyStr.between 9 13 c) eqn:E1; [apply code_range_bool in E1; lia|].
  destruct (PyStr.code c =? 32)%nat eqn:E2; [apply Nat.eqb_eq in E2; lia|].
  destruct (PyStr.code c =? 133)%nat eqn:E3; [apply Nat.eqb_eq in E3; lia|].
  destruct (PyStr.code c =? 160)%nat eqn:E4; [apply Nat.eqb_eq in E4; lia|].
  reflexivity.
Qed.

Lemma digit_not_char c (d : ascii) :
  PyStr.is_digit c = true -> PyStr.is_digit d = false -> Ascii.eqb c d = false.
Proof.
  intros Hc Hd; destruct (Ascii.eqb c d) eqn:E; [|reflexivity].
  apply Ascii.eqb_eq in E; congruence.
Qed.

Lemma all_digits_no_blank s : all_digits s = true -> no_blank s = true.
Proof.
  induction s as [|c s IH]; cbn [all_digits no_blank]; [auto|].
  intros H; apply andb_true_iff in H as [Hc Hs].
  now rewrite (digit_not_blank _ Hc), IH.
Qed.

Lemma lstrip_no_blank s : no_blank s = true -> PyFloat.lstrip_blanks s = s.
Proof.
  destruct s as [|c s]; cbn [no_blank PyFloat.lstrip_blanks]; [auto|].
  intros H; apply andb_true_iff in H as [Hc _].
  apply negb_true_iff in Hc; now rewrite Hc.
Qed.

Lemma rstrip_no_blank s : no_blank s = true -> PyFloat.rstrip_blanks s = s.
Proof.
  induction s as [|c s IH]; cbn [no_blank PyFloat.rstrip_blanks]; [auto|].
  intros H; apply andb_true_iff in H as [Hc Hs].
  apply negb_true_iff in Hc; now rewrite Hc, IH.
Qed.

Lemma strip_no_blank s : no_blank s = true -> PyFloat.strip_blanks s = s.
Proof.
  intros H; unfold PyFloat.strip_blanks; now rewrite lstrip_no_blank, rstrip_no_blank.
Qed.

Lemma drop_underscores_digits s : forall prev,
  all_digits s = true -> Ascii.eqb prev "_" = false ->
  PyFloat.drop_underscores prev s = Some s.
Proof.
  induction s as [|c s IH]; intros prev Hs Hp; cbn [PyFloat.drop_underscores].
  - now rewrite Hp.
  - cbn [all_digits] in Hs; apply andb_true_iff in Hs as [Hc Hs].
    assert (Hcu : Ascii.eqb c "_" = false) by (apply digit_not_char; auto).
    rewrite Hcu, Hp; cbn [andb]; now rewrite (IH c Hs Hcu).
Qed.

Lemma span_digits_all s : all_digits s = true -> PyFloat.span_digits s = (s, EmptyString).
Proof.
  induction s as [|c s IH]; simpl; [auto|].
  intros H; apply andb_true_iff in H as [Hc Hs]; now rewrite Hc, (IH Hs).
Qed.

Lemma lower_digits s : all_digits s = true -> PyStr.lower s = s.
Proof.
  induction s as [|c s IH]; simpl; [auto|].
  intros H; apply andb_true_iff in H as [Hc Hs]; rewrite (IH Hs); f_equal.
  unfold PyStr.lower_char.
  destruct (PyStr.between 65 90 c) eqn:E; [|reflexivity].
  apply code_range_bool in E; apply digit_code in Hc; lia.
Qed.

Lemma take_sign_cases c s :
  PyFloat.take_sign (String c s) =
  if Ascii.eqb c "-" then (true, s)
  else if Ascii.eqb c "+" then (false, s) else (false, String c s).
Proof.
  destruct c as [[] [] [] [] [] [] [] []]; reflexivity.
Qed.

Lemma append_empty_r (s : string) : (s ++ EmptyString)%string = s.
Proof. induction s as [|c s IH]; simpl; congruence. Qed.

Lemma parse_digits (neg : bool) (ds : string) :
  all_digits ds = true -> ds <> EmptyString ->
  PyFloat.parse_number neg ds = Some (PyFloat.of_decimal neg (PyFloat.digits_value 0 ds) 0).
Proof.
  intros Hd Hne; unfold PyFloat.parse_number.
  rewrite (span_digits_all _ Hd); cbn [PyFloat.span_digits PyFloat.parse_exponent].
  destruct ds as [|c ds]; [congruence|]; cbn [PyStr.is_empty andb].
  now rewrite append_empty_r.
Qed.

Lemma digit_head_differs c s (lit : string) :
  PyStr.is_digit c = true ->
  match lit with
  | String d _ => PyStr.is_digit d = false
  | EmptyString => True
  end ->
  String.eqb (String c s) lit = false.
Proof.
  intros Hc; destruct lit as [|d lit]; [reflexivity|]; intros Hd.
  cbn [String.eqb]; now rewrite (digit_not_char c d Hc Hd).
Qed.

Lemma parse_digit_text (ds : string) :
  all_digits ds = true -> ds <> EmptyString ->
  PyFloat.parse ds = Some (PyFloat.of_decimal false (PyFloat.digits_value 0 ds) 0).
Proof.
  intros Hd Hne; unfold PyFloat.parse.
  rewrite (strip_no_blank _ (all_digits_no_blank _ Hd)).
  rewrite (drop_underscores_digits ds "000" Hd eq_refl).
  destruct ds as [|c ds']; [congruence|].
  pose proof Hd as Hd'; cbn [all_digits] in Hd'; apply andb_true_iff in Hd' as [Hc _].
  rewrite take_sign_cases.
  rewrite (digit_not_char c "-" Hc eq_refl), (digit_not_char c "+" Hc eq_refl).
  rewrite (lower_digits _ Hd).
  rewrite !(digit_head_differs c ds') by (auto; reflexivity).
  cbn [orb]; apply parse_digits; [exact Hd | discriminate].
Qed.

Lemma parse_negative_digit_text (ds : string) :
  all_digits ds = true -> ds <> EmptyString ->
  PyFloat.parse (String "-" ds)
  = Some (PyFloat.of_decimal true (PyFloat.digits_value 0 ds) 0).
Proof.
  intros Hd Hne; unfold PyFloat.parse.
  assert (Hns : no_blank (String "-" ds) = true)
    by (cbn [no_blank]; now rewrite (all_digits_no_blank _ Hd)).
  rewrite (strip_no_blank _ Hns); cbn [PyFloat.drop_underscores].
  change (Ascii.eqb "-" "_") with false; change (Ascii.eqb "000" "_") with false.
  cbn [andb]; rewrite (drop_underscores_digits ds "-" Hd eq_refl); cbn [option_map].
  rewrite take_sign_cases; change (Ascii.eqb "-" "-") with true; cbv iota.
  destruct ds as [|c ds']; [congruence|].
  pose proof Hd as Hd'; cbn [all_digits] in Hd'; apply andb_true_iff in Hd' as [Hc _].
  rewrite (lower_digits _ Hd).
  rewrite !(digit_head_differs c ds') by (auto; reflexivity).
  cbn [orb]; apply parse_digits; [exact Hd | discriminate].
Qed.

Lemma digits_value_nonneg s : forall acc, (0 <= acc)%Z -> all_digits s = true ->
  (0 <= PyFloat.digits_value acc s)%Z.
Proof.
  induction s as [|c s IH]; intros acc Ha Hs; cbn [PyFloat.digits_value]; [exact Ha|].
  cbn [all_digits] in Hs; apply andb_true_iff in Hs as [Hc Hs].
  apply IH; [|exact Hs]. apply digit_code in Hc; lia.
Qed.

Lemma to_count_text (s : string) (neg : bool) (n : Z) :
  PyFloat.parse s = Some (PyFloat.of_decimal neg n 0) ->
  String.eqb s "nan" = false ->
  (0 <= n < 2 ^ 53)%Z ->
  forall legacy key (x : scalar),
    scalar_str x = s -> scalar_str_raises x = false ->
    Pandas.checknull x = false -> is_None (Scalar x) = false ->
    key_in key count_fields = true ->
    clean_value legacy key (Scalar x) = Ok (Scalar (PInt (if neg then - n else n))).
Proof.
  intros Hp Hnan Hn legacy key x Hs Hstr Hx Hnone Hk.
  unfold clean_value; cbn [Pandas.isna Pandas.truth bind_result]; rewrite Hx; cbv iota.
  rewrite Hk, Hnone; cbn [negb andb]; cbv iota.
  unfold to_count, str_of, PyFloat.of_string; cbn [py_str str_raises].
  rewrite Hstr; cbn [bind_result]; rewrite Hs, Hnan, Hp.
  cbn [negb bind_result]; rewrite (int_of_decimal neg n Hn); reflexivity.
Qed.

(** [str] returns on every [int] of at most 16 digits, so on every [int]
    of magnitude below [2^53]. *)
Lemma int_str_below (z : Z) :
  (Z.abs z < 10 ^ 16)%Z -> scalar_str_raises (PInt z) = false.
Proof.
  intros Hz; unfold scalar_str_raises; apply Z.leb_gt.
  assert (H2 : (10 ^ 16 <= 10 ^ int_max_str_digits)%Z)
    by (apply Z.pow_le_mono_r; unfold int_max_str_digits; lia).
  eapply Z.lt_le_trans; [exact Hz | exact H2].
Qed.

Lemma small_int_str (z : Z) :
  (Z.abs z < 2 ^ 53)%Z -> scalar_str_raises (PInt z) = false.
Proof.
  intros Hz; apply int_str_below.
  assert (H1 : (2 ^ 53 < 10 ^ 16)%Z) by (vm_compute; reflexivity).
  eapply Z.lt_trans; [exact Hz | exact H1].
Qed.

(** X8.  Under a count-like key a string of decimal digits that denotes a
    number below [2^53] is cleaned to exactly that number: the passage
    through [float] loses nothing. *)
Theorem count_of_digit_text (legacy : bool) (key ds : string) :
  key_in key count_fields = true ->
  all_digits ds = true -> ds <> EmptyString ->
  (PyFloat.digits_value 0 ds < 2 ^ 53)%Z ->
  clean_value legacy key (Scalar (PStr ds)) = Ok (Scalar (PInt (PyFloat.digits_value 0 ds))).
Proof.
  intros Hk Hd Hne Hlt.
  apply (to_count_text ds false (PyFloat.digits_value 0 ds)); auto.
  - now apply parse_digit_text.
  - destruct ds as [|c ds']; [congruence|].
    cbn [all_digits] in Hd; apply andb_true_iff in Hd as [Hc _].
    apply digit_head_differs; [exact Hc | reflexivity].
  - split; [apply digits_value_nonneg; [lia | exact Hd] | exact Hlt].
Qed.

Lemma uint_string_digits (u : Decimal.uint) :
  all_digits (NilEmpty.string_of_uint u) = true.
Proof. induction u; cbn [NilEmpty.string_of_uint all_digits]; auto. Qed.

Lemma uint_string_value_acc (u : Decimal.uint) : forall acc : positive,
  PyFloat.digits_value (Zpos acc) (NilEmpty.string_of_uint u) = Zpos (Pos.of_uint_acc u acc).
Proof.
  induction u; intros acc;
    cbn [NilEmpty.string_of_uint PyFloat.digits_value Pos.of_uint_acc];
    [reflexivity|..];
    match goal with
    | |- PyFloat.digits_value ?a _ = Zpos (Pos.of_uint_acc _ ?b) =>
        replace a with (Zpos b)
          by (match goal with
              | |- context [Z.of_nat (PyStr.code ?c)] =>
                  let v := eval vm_compute in (Z.of_nat (PyStr.code c)) in
                  change (Z.of_nat (PyStr.code c)) with v
              end; lia)
    end; apply IHu.
Qed.

Lemma uint_string_value (u : Decimal.uint) :
  PyFloat.digits_value 0 (NilEmpty.string_of_uint u) = Z.of_N (Pos.of_uint u).
Proof.
  induction u; cbn [NilEmpty.string_of_uint PyFloat.digits_value Pos.of_uint];
    [reflexivity|exact IHu|..];
    match goal with
    | |- PyFloat.digits_value ?a _ = Z.of_N (Npos (Pos.of_uint_acc _ ?b)) =>
        replace a with (Zpos b)
          by (match goal with
              | |- context [Z.of_nat (PyStr.code ?c)] =>
                  let v := eval vm_compute in (Z.of_nat (PyStr.code c)) in
                  change (Z.of_nat (PyStr.code c)) with v
              end; lia)
    end; apply uint_string_value_acc.
Qed.

Lemma pos_string (p : positive) :
  PyStr.of_Z (Zpos p) = NilEmpty.string_of_uint (Pos.to_uint p) /\
  PyStr.of_Z (Zneg p) = String "-" (NilEmpty.string_of_uint (Pos.to_uint p)) /\
  NilEmpty.string_of_uint (Pos.to_uint p) <> EmptyString /\
  PyFloat.digits_value 0 (NilEmpty.string_of_uint (Pos.to_uint p)) = Zpos p.
Proof.
  pose proof (Unsigned.to_uint_nonnil p) as Hnn.
  unfold PyStr.of_Z, Z.to_int, NilZero.string_of_int, NilZero.string_of_uint.
  rewrite uint_string_value, DecimalPos.Unsigned.of_to.
  destruct (Pos.to_uint p); try congruence; repeat split; discriminate.
Qed.

(** X9.  Under a count-like key an [int] cell of magnitude below [2^53]
    comes out unchanged: [int(float(str(z)))] is [z]. *)
Theorem count_of_int_cell (legacy : bool) (key : string) (z : Z) :
  key_in key count_fields = true ->
  (Z.abs z < 2 ^ 53)%Z ->
  clean_value legacy key (Scalar (PInt z)) = Ok (Scalar (PInt z)).
Proof.
  intros Hk Hz; destruct z as [|p|p].
  - assert (Hrange : (0 <= 0 < 2 ^ 53)%Z) by lia.
    exact (to_count_text "0" false 0 eq_refl eq_refl Hrange legacy key (PInt 0)
             eq_refl (small_int_str _ Hz) eq_refl eq_refl Hk).
  - destruct (pos_string p) as (Hs & _ & Hne & Hv).
    pose proof (uint_string_digits (Pos.to_uint p)) as Hd.
    assert (Hparse : PyFloat.parse (PyStr.of_Z (Zpos p))
                     = Some (PyFloat.of_decimal false (Zpos p) 0)).
    { rewrite Hs, <- Hv; now apply parse_digit_text. }
    assert (Hnan : String.eqb (PyStr.of_Z (Zpos p)) "nan" = false).
    { rewrite Hs; destruct (NilEmpty.string_of_uint (Pos.to_uint p)) as [|c r]; [congruence|].
      cbn [all_digits] in Hd; apply andb_true_iff in Hd as [Hc _].
      apply digit_head_differs; [exact Hc | reflexivity]. }
    assert (Hrange : (0 <= Zpos p < 2 ^ 53)%Z) by lia.
    exact (to_count_text _ false _ Hparse Hnan Hrange legacy key (PInt (Zpos p))
             eq_refl (small_int_str _ Hz) eq_refl eq_refl Hk).
  - destruct (pos_string p) as (_ & Hs & Hne & Hv).
    pose proof (uint_string_digits (Pos.to_uint p)) as Hd.
    assert (Hparse : PyFloat.parse (PyStr.of_Z (Zneg p))
                     = Some (PyFloat.of_decimal true (Zpos p) 0)).
    { rewrite Hs, <- Hv; now apply parse_negative_digit_text. }
    assert (Hnan : String.eqb (PyStr.of_Z (Zneg p)) "nan" = false)
      by (rewrite Hs; reflexivity).
    assert (Hrange : (0 <= Zpos p < 2 ^ 53)%Z) by lia.
    exact (to_count_text _ true _ Hparse Hnan Hrange legacy key (PInt (Zneg p))
             eq_refl (small_int_str _ Hz) eq_refl eq_refl Hk).
Qed.

(** Beyond [2^53] the passage through [float] rounds. *)
Example count_of_int_beyond_2_53 legacy :
  clean_value legacy "min_amount" (Scalar (PInt 9007199254740993))
  = Ok (Scalar (PInt 9007199254740992)).
Proof.
  unfold clean_value, to_count, str_of.
  cbn [Pandas.isna Pandas.truth Pandas.checknull bind_result str_raises].
  rewrite (int_str_below 9007199254740993) by (vm_compute; reflexivity).
  destruct legacy; vm_compute; reflexivity.
Qed.

End WholeNumbers.

(** ** More on the cleaning of records *)

Section MoreCleaning.

Lemma lstrip_blanks_head s c r :
  PyFloat.lstrip_blanks s = String c r -> PyFloat.is_blank c = false.
Proof.
  induction s as [|d s IH]; cbn [PyFloat.lstrip_blanks]; [discriminate|].
  destruct (PyFloat.is_blank d) eqn:E; [exact IH|].
  intros [= <- <-]; exact E.
Qed.

Lemma rstrip_blanks_idempotent s :
  PyFloat.rstrip_blanks (PyFloat.rstrip_blanks s) = PyFloat.rstrip_blanks s.
Proof.
  induction s as [|c s IH]; cbn [PyFloat.rstrip_blanks]; [reflexivity|].
  destruct (PyFloat.is_blank c && PyStr.is_empty (PyFloat.rstrip_blanks s)) eqn:E;
    [reflexivity|].
  cbn [PyFloat.rstrip_blanks]; rewrite IH, E; reflexivity.
Qed.

Lemma strip_blanks_idempotent s :
  PyFloat.strip_blanks (PyFloat.strip_blanks s) = PyFloat.strip_blanks s.
Proof.
  unfold PyFloat.strip_blanks.
  destruct (PyFloat.lstrip_blanks s) as [|c r] eqn:E; [reflexivity|].
  pose proof (lstrip_blanks_head _ _ _ E) as Hc.
  cbn [PyFloat.rstrip_blanks]; rewrite Hc; cbn [andb PyFloat.lstrip_blanks]; rewrite Hc.
  cbn [PyFloat.rstrip_blanks]; rewrite Hc; cbn [andb].
  now rewrite rstrip_blanks_idempotent.
Qed.

Lemma parse_strip_blanks s : PyFloat.parse (PyFloat.strip_blanks s) = PyFloat.parse s.
Proof. unfold PyFloat.parse; now rewrite strip_blanks_idempotent. Qed.

(** X10.  The white space that [float] strips (tab, line feed, vertical
    tab, form feed, carriage return and space, and among the characters above
    127 the next-line and no-break space) does not change, around the text of
    a count-like field, what the field is cleaned to. *)
Theorem count_ignores_surrounding_space (legacy : bool) (key s : string) :
  key_in key count_fields = true ->
  clean_value legacy key (Scalar (PStr (PyFloat.strip_blanks s)))
  = clean_value legacy key (Scalar (PStr s)).
Proof.
  intros Hk; unfold clean_value; cbn [Pandas.isna Pandas.truth Pandas.checknull bind_result].
  cbv iota; rewrite Hk; cbn [is_None negb andb]; cbv iota.
  unfold to_count, str_of, PyFloat.of_string.
  cbn [str_raises scalar_str_raises py_str scalar_str bind_result]; cbv iota.
  rewrite parse_strip_blanks.
  destruct (String.eqb (PyFloat.strip_blanks s) "nan") eqn:E1;
    destruct (String.eqb s "nan") eqn:E2; cbn [negb]; cbv iota; try reflexivity.
  - apply String.eqb_eq in E1.
    rewrite <- parse_strip_blanks, E1; reflexivity.
  - apply String.eqb_eq in E2; subst s; discriminate.
  - destruct (PyFloat.parse s); reflexivity.
Qed.

(** The separators 28 to 31 are white space for [str.strip] and not for
    [float]: around a number they turn the field into [None]. *)
Example count_of_separator_padded_text legacy :
  PyStr.strip (String (ascii_of_nat 31) (String "7" (String (ascii_of_nat 28) EmptyString))) = "7"%string /\
  clean_value legacy "min_amount" (Scalar (PStr "7")) = Ok (Scalar (PInt 7)) /\
  clean_value legacy "min_amount"
    (Scalar (PStr (String (ascii_of_nat 31) (String "7" (String (ascii_of_nat 28) EmptyString)))))
  = Ok (Scalar PNone) /\
  clean_value legacy "min_amount"
    (Scalar (PStr (String (ascii_of_nat 29) "inf"))) = Ok (Scalar PNone).
Proof. destruct legacy; vm_compute; auto. Qed.

Lemma clean_items_ok_iff (legacy : bool) (job : dict) :
  forall cleaned_job,
    is_Ok (clean_items legacy job cleaned_job) = no_cell_aborts legacy job.
Proof.
  unfold no_cell_aborts; induction job as [|[key value] rest IH]; intros acc;
    [reflexivity|].
  cbn [clean_items forallb fst snd]; unfold bind_result.
  pose proof (clean_value_ok_iff legacy key value) as H.
  destruct (clean_value legacy key value) as [c|e]; cbn [is_Ok] in *;
    rewrite <- H; cbn [andb]; [apply IH | reflexivity].
Qed.

(** X7.  A record is cleaned without an exception exactly when none of
    its cells makes the cleaning raise, whatever was cleaned before; and when
    a cell does, the exception that leaves the loop is the one of the first
    such cell. *)
Theorem record_cleans_iff_no_cell_aborts (legacy : bool) (job : dict) :
  (forall cleaned_job,
      is_Ok (clean_items legacy job cleaned_job) = no_cell_aborts legacy job) /\
  (forall before key value after cleaned_job e,
      job = before ++ (key, value) :: after ->
      no_cell_aborts legacy before = true ->
      clean_value legacy key value = Raise e ->
      clean_items legacy job cleaned_job = Raise e).
Proof.
  split; [apply clean_items_ok_iff|].
  intros before key value after acc e -> Hb Hv; revert acc.
  induction before as [|[k v] before IH]; intros acc; cbn [app clean_items].
  - now rewrite Hv.
  - unfold no_cell_aborts in Hb; cbn [forallb fst snd] in Hb.
    apply andb_true_iff in Hb as [Hkv Hb].
    pose proof (clean_value_ok_iff legacy k v) as Hok; rewrite Hkv in Hok.
    destruct (clean_value legacy k v) as [c|e']; [|discriminate].
    cbn [bind_result]; now apply IH.
Qed.

Lemma strip_empty_iff s : PyStr.is_empty (PyStr.strip s) = true <-> 
                          forall c, PyStr.contains c s = true -> PyStr.is_space c = true.
Proof.
  unfold PyStr.strip; induction s as [|d s IH]; cbn [PyStr.lstrip].
  - split; [intros _ c Hc; discriminate | reflexivity].
  - destruct (PyStr.is_space d) eqn:Ed.
    + rewrite IH; split; intros H c Hc.
      * cbn [PyStr.contains] in Hc; apply orb_true_iff in Hc as [Hc|Hc]; [|auto].
        apply Ascii.eqb_eq in Hc; now subst.
      * apply H; cbn [PyStr.contains]; rewrite Hc; apply orb_true_r.
    + cbn [PyStr.rstrip]; rewrite Ed; cbn [andb PyStr.is_empty]; split; [discriminate|].
      intros H; specialize (H d); cbn [PyStr.contains] in H.
      rewrite Ascii.eqb_refl in H; specialize (H eq_refl); congruence.
Qed.

Lemma split_pieces_chars sep s c :
  Ascii.eqb c sep = false ->
  (PyStr.contains c s = true <->
   exists p, In p (PyStr.split sep s) /\ PyStr.contains c p = true).
Proof.
  intros Hc; induction s as [|d s IH]; cbn [PyStr.split PyStr.contains].
  - split; [discriminate|]; intros (p & [<-|[]] & Hp); discriminate.
  - destruct (Ascii.eqb d sep) eqn:Ed.
    + apply Ascii.eqb_eq in Ed; subst d; rewrite Hc; cbn [orb]; rewrite IH.
      split; intros (p & Hin & Hp); exists p; split; auto; [now right|].
      destruct Hin as [<-|Hin]; [discriminate | exact Hin].
    + destruct (PyStr.split sep s) as [|h t] eqn:Es.
      * split.
        -- intros H; exists (String d EmptyString); split; [now left|].
           cbn [PyStr.contains]; apply orb_true_iff in H as [H|H]; [now rewrite H|].
           apply IH in H as (p & [] & _).
        -- intros (p & [<-|[]] & Hp); cbn [PyStr.contains] in Hp.
           apply orb_true_iff in Hp as [Hp|Hp]; [now rewrite Hp | discriminate].
      * split.
        -- intros H; apply orb_true_iff in H as [H|H].
           ++ exists (String d h); split; [now left|]; cbn [PyStr.contains]; now rewrite H.
           ++ apply IH in H as (p & [<-|Hin] & Hp).
              ** exists (String d h); split; [now left|].
                 cbn [PyStr.contains]; rewrite Hp; apply orb_true_r.
              ** exists p; split; [now right | exact Hp].
        -- intros (p & [<-|Hin] & Hp).
           ++ cbn [PyStr.contains] in Hp; apply orb_true_iff in Hp as [Hp|Hp];
                [now rewrite Hp|].
              apply orb_true_iff; right; apply IH; exists h; split; [now left | exact Hp].
           ++ apply orb_true_iff; right; apply IH; exists p; split; [now right | exact Hp].
Qed.

Lemma blank_or_commas_spec s :
  blank_or_commas s = true <->
  forall c, PyStr.contains c s = true -> PyStr.is_space c = true \/ c = ","%char.
Proof.
  induction s as [|d s IH]; cbn [blank_or_commas PyStr.contains].
  - split; [intros _ c Hc; discriminate | reflexivity].
  - rewrite andb_true_iff, IH, orb_true_iff, Ascii.eqb_eq; split.
    + intros [Hd Hs] c Hc; apply orb_true_iff in Hc as [Hc|Hc]; [|auto].
      apply Ascii.eqb_eq in Hc; now subst.
    + intros H; split.
      * apply H; now rewrite Ascii.eqb_refl.
      * intros c Hc; apply H; rewrite Hc; apply orb_true_r.
Qed.

(** X6.  The list made from a string is empty exactly when the string
    holds nothing but white space and commas; the empty string, too, is
    cleaned to the empty list and not to null. *)
Theorem split_skills_empty_iff_blank (s : string) :
  split_skills s = [] <-> blank_or_commas s = true.
Proof.
  rewrite blank_or_commas_spec; unfold split_skills; split.
  - intros Hnil c Hc.
    destruct (Ascii.eqb c ",") eqn:Ec; [right; now apply Ascii.eqb_eq|left].
    apply (split_pieces_chars "," s c Ec) in Hc as (p & Hin & Hp).
    destruct (PyStr.is_empty (PyStr.strip p)) eqn:Ep.
    + exact (proj1 (strip_empty_iff p) Ep c Hp).
    + assert (Hf : In p (filter (fun skill => negb (PyStr.is_empty (PyStr.strip skill)))
                           (PyStr.split "," s)))
        by (apply filter_In; split; [exact Hin | now rewrite Ep]).
      apply (in_map PyStr.strip) in Hf; rewrite Hnil in Hf; destruct Hf.
  - intros Hall.
    destruct (filter _ (PyStr.split "," s)) as [|p l] eqn:Ef; [reflexivity|exfalso].
    assert (Hin : In p (filter (fun skill => negb (PyStr.is_empty (PyStr.strip skill)))
                          (PyStr.split "," s))) by (rewrite Ef; now left).
    apply filter_In in Hin as [Hin Hne]; apply negb_true_iff in Hne.
    assert (Hempty : PyStr.is_empty (PyStr.strip p) = true); [|congruence].
    apply (proj2 (strip_empty_iff p)); intros c Hc.
    pose proof (split_pieces_without_separator "," s) as Hsep.
    rewrite Forall_forall in Hsep; specialize (Hsep p Hin).
    assert (Ec : Ascii.eqb c "," = false).
    { destruct (Ascii.eqb c ",") eqn:E; [|reflexivity].
      apply Ascii.eqb_eq in E; subst c; congruence. }
    destruct (Hall c) as [Hs| ->]; [|exact Hs|discriminate].
    apply (split_pieces_chars "," s c Ec); eauto.
Qed.

End MoreCleaning.

(** ** The write of a table, as a whole *)

Section WholeWrite.

Context {S : Type}.
Variable env : Env S.
Implicit Types w : world S.

Lemma all_clean_iff legacy (jobs : list dict) :
  forallb (no_cell_aborts legacy) jobs
  = forallb (fun job => is_Ok (clean_items legacy job [])) jobs.
Proof.
  induction jobs as [|job jobs IH]; [reflexivity|].
  cbn [forallb]; rewrite IH; f_equal.
  symmetry; apply clean_items_ok_iff.
Qed.

(** X12.  The write of a table always ends normally, and the number of
    upsert calls it issues is decided by the table alone: none for an empty
    table or when some cell makes the cleaning raise, and otherwise one call
    for every ten rows or part of ten, whatever the store answers. *)
Theorem number_of_upsert_calls (df : DataFrame) w :
  exists s' t,
    runs (insert_jobs_to_supabase env (OFrame df)) w (Ok tt) s' t /\
    upsert_calls t =
      if df_empty df then 0
      else if forallb (no_cell_aborts (numpy_legacy env)) (to_dict_records df)
           then (df_len df + 9) / 10
           else 0.
Proof.
  destruct (df_empty df) eqn:He.
  - exists (store w), [Log INFO "No jobs to insert"]; split; [|reflexivity].
    now apply insert_empty_runs.
  - destruct (insert_jobs_runs env df w He) as (s' & tc & tw & written & Hr & Hnow & Hw & _).
    exists s', (tc ++ tw); split; [exact Hr|].
    destruct (now_events_no_upsert _ Hnow) as [Hu _].
    unfold upsert_calls, upsert_batches in *; rewrite flat_map_app, Hu; cbn [app].
    assert (Hall : forallb (no_cell_aborts (numpy_legacy env)) (to_dict_records df)
                   = forallb (fun job => is_Ok (clean_items (numpy_legacy env) job []))
                       (to_dict_records df))
      by apply all_clean_iff.
    rewrite Hall; destruct Hw as [cleaned tw HF Hbt | job e Hin Hj].
    + rewrite (cleaned_from_all_ok _ _ _ HF).
      pose proof (batch_trace_upserts _ _ _ Hbt) as Hb; unfold upsert_batches in Hb.
      rewrite Hb, batches_length, <- (Forall2_length HF).
      unfold to_dict_records, df_len; now rewrite length_map.
    + now rewrite (raising_job_not_all_ok _ _ _ _ Hin Hj).
Qed.

(** X13.  The write raises only when it is handed something that is no
    table: [jobs_df.empty] of line 78 stands before the [try], so for [None]
    or another object the [AttributeError] reaches the caller, with nothing
    done; for every table the write ends normally. *)
Theorem write_raises_only_without_table :
  (forall df w, exists s' t, runs (insert_jobs_to_supabase env (OFrame df)) w (Ok tt) s' t) /\
  (forall w,
      insert_jobs_to_supabase env ONone w
      = (Raise (AttributeError "'NoneType' object has no attribute 'empty'"), w)) /\
  (forall ty w,
      insert_jobs_to_supabase env (OOther ty) w
      = (Raise (AttributeError ("'" ++ ty ++ "' object has no attribute 'empty'")), w)) /\
  (forall o w e w', insert_jobs_to_supabase env o w = (Raise e, w') ->
                    w' = w /\ forall df, o <> OFrame df).
Proof.
  split; [|split; [|split]].
  - intros df w; apply insert_jobs_total.
  - reflexivity.
  - reflexivity.
  - intros o w e w' H; destruct o as [|df|ty].
    + inversion H; split; [reflexivity | discriminate].
    + destruct (insert_jobs_total env df w) as (s' & t & Hr).
      unfold runs in Hr; rewrite Hr in H; discriminate.
    + inversion H; split; [reflexivity | discriminate].
Qed.

End WholeWrite.

(** ** The properties on sample inputs *)

(** The records of the sample table of two jobs, whose labels are distinct. *)
Lemma records_of_distinct_columns_witness :
  NoDup (columns (sample_frame 2)) /\
  to_dict_records (sample_frame 2)
  = map (combine (columns (sample_frame 2))) (data (sample_frame 2)).
Proof.
  assert (H : NoDup (columns (sample_frame 2))).
  { cbn [sample_frame columns]; repeat constructor; cbn [In];
      intuition discriminate. }
  split; [exact H | exact (records_of_distinct_columns (sample_frame 2) H)].
Defined.

(** X1 on a job that already has a [scraped_at] column. *)
Lemma clean_job_keeps_columns_and_stamps_witness :
  NoDup (dict_keys [("id", Scalar (PStr "job-1")); ("scraped_at", Scalar (PStr "then"))]) /\
  match clean_job (sample_env true true (fun _ => Ok ONone))
          [("id", Scalar (PStr "job-1")); ("scraped_at", Scalar (PStr "then"))] start with
  | (Ok cleaned_job, _) =>
      dict_keys cleaned_job = ["id"; "scraped_at"]%string /\
      dict_get cleaned_job "scraped_at" = Some (Scalar (PStr "2026-01-01T00:00:00"))
  | (Raise _, _) => False
  end.
Proof.
  assert (H : NoDup (dict_keys [("id", Scalar (PStr "job-1"));
                                ("scraped_at", Scalar (PStr "then"))])).
  { cbn [dict_keys map fst]; repeat constructor; cbn [In]; intuition discriminate. }
  split; [exact H|].
  pose proof (clean_job_keeps_columns_and_stamps
                (sample_env true true (fun _ => Ok ONone))
                [("id", Scalar (PStr "job-1")); ("scraped_at", Scalar (PStr "then"))]
                start H) as Hc.
  destruct (clean_job _ _ start) as [[c|e] w'].
  - destruct Hc as (Hk & Hg & _); split; [exact Hk | exact Hg].
  - destruct Hc as [Hc _]; vm_compute in Hc; discriminate.
Defined.

(** X2 on the first record of the sample table, at the key [min_amount]. *)
Lemma cleaned_record_is_fieldwise_witness :
  exists job cleaned_job,
    In job (to_dict_records (sample_frame 1)) /\
    cleaned_from true job cleaned_job /\
    dict_get cleaned_job "min_amount" = Some (Scalar (PInt 42)) /\
    dict_get cleaned_job "id" = Some (Scalar (PStr "job-1")).
Proof.
  set (job := [("id", Scalar (PStr "job-1")); ("title", Scalar (PStr "Product Manager"));
               ("min_amount", Scalar (PStr "42.0"));
               ("skills", Scalar (PStr "python, sql ,  ml"))] : dict).
  set (cleaned_job := [("id", Scalar (PStr "job-1"));
                       ("title", Scalar (PStr "Product Manager"));
                       ("min_amount", Scalar (PInt 42));
                       ("skills", PList [PStr "python"; PStr "sql"; PStr "ml"]);
                       ("scraped_at", Scalar (PStr "now"))] : dict).
  assert (Hin : In job (to_dict_records (sample_frame 1))) by (left; reflexivity).
  assert (Hcf : cleaned_from true job cleaned_job).
  { exists [("id", Scalar (PStr "job-1")); ("title", Scalar (PStr "Product Manager"));
            ("min_amount", Scalar (PInt 42));
            ("skills", PList [PStr "python"; PStr "sql"; PStr "ml"])], "now"%string.
    split; vm_compute; reflexivity. }
  exists job, cleaned_job; split; [exact Hin|split; [exact Hcf|split]].
  - destruct (cleaned_record_is_fieldwise true (sample_frame 1) job cleaned_job
                "min_amount" Hin Hcf) as [H _]; [discriminate|].
    cbn [job dict_get String.eqb Ascii.eqb Bool.eqb] in H.
    destruct H as (c & Hv & Hg); rewrite Hg; vm_compute in Hv; congruence.
  - destruct (cleaned_record_is_fieldwise true (sample_frame 1) job cleaned_job
                "id" Hin Hcf) as [_ H]; [discriminate|].
    exact (H (PStr "job-1") eq_refl eq_refl eq_refl).
Defined.

(** X14 with a provider that answers [None] everywhere. *)
Lemma run_without_records_writes_nothing_witness :
  (forall t site_name term location wanted hours country,
      df_empty (fetched_frame
                  (scrape_jobs (sample_env true true (fun _ => Ok ONone))
                     t site_name term location wanted hours country)) = true) /\
  exists t,
    runs (run_scrape (sample_env true true (fun _ => Ok ONone)) configured_scraper)
      start (Ok true) (store start)
      (Log INFO "Starting job scraping..." :: t ++
       [Log INFO "Job scraping completed! Total jobs processed: 0"]) /\
    upsert_calls t = 0.
Proof.
  split; [reflexivity|].
  destruct (run_without_records_writes_nothing (sample_env true true (fun _ => Ok ONone))
              configured_scraper start (fun _ _ _ _ _ _ _ => eq_refl))
    as (t & Hr & _ & Hu & _).
  exists t; split; [exact Hr | exact Hu].
Defined.

(** X8 on the text [50000]. *)
Lemma count_of_digit_text_witness :
  key_in "min_amount" count_fields = true /\
  all_digits "50000" = true /\ "50000"%string <> EmptyString /\
  (PyFloat.digits_value 0 "50000" < 2 ^ 53)%Z /\
  clean_value true "min_amount" (Scalar (PStr "50000")) = Ok (Scalar (PInt 50000)).
Proof.
  split; [reflexivity|split; [reflexivity|split; [discriminate|split; [reflexivity|]]]].
  exact (count_of_digit_text true "min_amount" "50000" eq_refl eq_refl
           (fun H => match H in (_ = s) return
                       match s with EmptyString => False | String _ _ => True end
                     with eq_refl => I end)
           eq_refl).
Defined.

(** X9 on the cell [-1200000]. *)
Lemma count_of_int_cell_witness :
  key_in "max_amount" count_fields = true /\
  (Z.abs (-1200000) < 2 ^ 53)%Z /\
  clean_value false "max_amount" (Scalar (PInt (-1200000))) = Ok (Scalar (PInt (-1200000))).
Proof.
  split; [reflexivity|split; [reflexivity|]].
  exact (count_of_int_cell false "max_amount" (-1200000) eq_refl eq_refl).
Defined.

(** X10 on a text with white space on both sides. *)
Lemma count_ignores_surrounding_space_witness :
  key_in "vacancy_count" count_fields = true /\
  clean_value true "vacancy_count" (Scalar (PStr (PyFloat.strip_blanks "  12.0 ")))
  = clean_value true "vacancy_count" (Scalar (PStr "  12.0 ")).
Proof.
  split; [reflexivity|].
  exact (count_ignores_surrounding_space true "vacancy_count" "  12.0 " eq_refl).
Defined.
